(** * Front Door settings validator

    A shallow embedding of [FrontdoorSettings] from
    azurerm/internal/services/frontdoor/validate/validate.go and the
    properties its specification states about it.

    The Go function walks an untyped configuration tree
    ([interface{}], [[]interface{}], [map[string]interface{}]) with
    unchecked type assertions and returns the first [fmt.Errorf] it
    builds.  The embedding keeps both aspects: configuration values are
    a dynamic [value] tree, and every step runs in a three-outcome
    [result]: normal completion, a returned error, or a runtime panic. *)

From stdpp Require Import base option list gmap strings.
From Stdlib Require Import ZArith Strings.Byte.

Set Warnings "-register-all".
Local Open Scope string_scope.
Local Open Scope list_scope.

(** ** Dynamic values *)

(** What a Go [interface{}] of the configuration tree can hold. *)
Inductive value : Type :=
| VNil                              (* the nil interface: a missing map key *)
| VString (s : string)
| VBool (b : bool)
| VInt (n : Z)
| VList (l : list value)            (* []interface{} *)
| VMap (m : gmap string value).     (* map[string]interface{} *)

(** [m[k]] on a Go map: the stored value, or nil when the key is missing. *)
Definition index (m : gmap string value) (k : string) : value :=
  default VNil (m !! k).

(** ** Errors *)

(** Modelled from the spec: the error [helper.DoesBackendPoolExists]
    returns (the helper package is not part of the source file).  Section
    4.1: a not-found report echoes the name that was searched in the
    collection. *)
Inductive lookup_error : Type :=
| BackendPoolNotFound (backendPoolName : string).

(** One constructor per [fmt.Errorf] of [FrontdoorSettings], carrying the
    arguments interpolated into the message, in order of appearance in
    the source. *)
Inductive error : Type :=
| NoFrontendEndpoint                                                   (* line 45 *)
| RoutingRuleNoConfiguration (routingRuleName : value)                 (* line 59 *)
| RoutingRuleConflictingConfiguration (routingRuleName : value)        (* line 64 *)
| RoutingRuleBackendPool (routingRuleName : value) (err : lookup_error)  (* line 71 *)
| RoutingRuleFrontendNotFound (routingRuleName : value)
                              (routingRulefrontendName : string)       (* line 98 *)
| RoutingRuleNoFrontendEndpoints (routingRuleName : value)             (* line 102 *)
| BackendPoolLoadBalancingNotFound
    (backendPoolName backendPoolLoadBalancingName : value)             (* line 127 *)
| BackendPoolHealthProbeNotFound
    (backendPoolName backendPoolHealthProbeName : value)               (* line 146 *)
| CustomHttpsDisabled (FrontendName : value)                           (* line 159 *)
| CustomHttpsKeyVaultIncomplete (FrontendName : value)                 (* line 166 *)
| CustomHttpsKeyVaultExtraneous (FrontendName : value)                 (* line 170 *)
| CustomHttpsUndefined (FrontendName : value).                         (* line 174 *)

(** The taxonomy of section 7 of the specification. *)
Inductive Kind : Type :=
| MissingRequiredCollection
| MissingConfigurationBlock
| ConflictingConfigurationBlocks
| DanglingReference
| InvalidTlsState
| IncompleteTlsConfig
| ExtraneousTlsConfig.

Definition kind (e : error) : Kind :=
  match e with
  | NoFrontendEndpoint => MissingRequiredCollection
  | RoutingRuleNoConfiguration _ => MissingConfigurationBlock
  | RoutingRuleConflictingConfiguration _ => ConflictingConfigurationBlocks
  | RoutingRuleBackendPool _ _ => DanglingReference
  | RoutingRuleFrontendNotFound _ _ => DanglingReference
  | RoutingRuleNoFrontendEndpoints _ => MissingRequiredCollection
  | BackendPoolLoadBalancingNotFound _ _ => DanglingReference
  | BackendPoolHealthProbeNotFound _ _ => DanglingReference
  | CustomHttpsDisabled _ => InvalidTlsState
  | CustomHttpsKeyVaultIncomplete _ => IncompleteTlsConfig
  | CustomHttpsKeyVaultExtraneous _ => ExtraneousTlsConfig
  | CustomHttpsUndefined _ => MissingConfigurationBlock
  end.

(** The values a message interpolates (each [%q] / [%+v] argument once). *)
Definition mentions (e : error) : list value :=
  match e with
  | NoFrontendEndpoint => []
  | RoutingRuleNoConfiguration rr => [rr]
  | RoutingRuleConflictingConfiguration rr => [rr]
  | RoutingRuleBackendPool rr (BackendPoolNotFound bp) => [rr; VString bp]
  | RoutingRuleFrontendNotFound rr fe => [rr; VString fe]
  | RoutingRuleNoFrontendEndpoints rr => [rr]
  | BackendPoolLoadBalancingNotFound bp lb => [bp; lb]
  | BackendPoolHealthProbeNotFound bp hp => [bp; hp]
  | CustomHttpsDisabled fe => [fe]
  | CustomHttpsKeyVaultIncomplete fe => [fe]
  | CustomHttpsKeyVaultExtraneous fe => [fe]
  | CustomHttpsUndefined fe => [fe]
  end.

(** ** Outcomes *)

Inductive result (A : Type) : Type :=
| Return (a : A)     (* the statement sequence ran to its end *)
| Fail (e : error)   (* [return fmt.Errorf(...)] *)
| Panic.             (* failed type assertion, index out of range,
                        comparison of uncomparable values *)
Arguments Return {A} a.
Arguments Fail {A} e.
Arguments Panic {A}.

#[global] Instance result_ret : MRet result := @Return.
#[global] Instance result_bind : MBind result := fun A B f r =>
  match r with
  | Return a => f a
  | Fail e => Fail e
  | Panic => Panic
  end.

(** [for _, x := range l { body }] where the body either falls through
    or leaves the function. *)
Fixpoint for_each (body : value -> result unit) (l : list value) : result unit :=
  match l with
  | [] => Return ()
  | x :: rest =>
      match body x with
      | Return _ => for_each body rest
      | Fail e => Fail e
      | Panic => Panic
      end
  end.

(** ** Go primitives *)

(** Single-result type assertions [v.(T)]: they panic on any other
    dynamic type, nil included. *)
Definition assert_list (v : value) : result (list value) :=
  match v with VList l => Return l | _ => Panic end.

Definition assert_map (v : value) : result (gmap string value) :=
  match v with VMap m => Return m | _ => Panic end.

Definition assert_string (v : value) : result string :=
  match v with VString s => Return s | _ => Panic end.

Definition assert_bool (v : value) : result bool :=
  match v with VBool b => Return b | _ => Panic end.

(** [l[i]]: panics out of range. *)
Definition at_index (l : list value) (i : nat) : result value :=
  match l !! i with Some v => Return v | None => Panic end.

(** [a == b] on two interface values: false when the dynamic types
    differ, the comparison of the contents when they agree, and a panic
    when both hold a slice or both hold a map.  A string operand is first
    converted to an interface, hence [VString s] on that side. *)
Definition iface_eq (a b : value) : result bool :=
  match a, b with
  | VNil, VNil => Return true
  | VString s, VString t => Return (String.eqb s t)
  | VBool x, VBool y => Return (Bool.eqb x y)
  | VInt x, VInt y => Return (Z.eqb x y)
  | VList _, VList _ => Panic
  | VMap _, VMap _ => Panic
  | _, _ => Return false
  end.

(** ** Collaborators outside validate.go *)

(** Modelled from the spec: the SDK constant
    [frontdoor.CertificateSourceAzureKeyVault] is not part of the source
    file; the specification gives its string value. *)
Definition CertificateSourceAzureKeyVault : string := "AzureKeyVault".

Definition has_name (name : string) (entry : value) : bool :=
  match entry with
  | VMap m => match index m "name" with
              | VString s => String.eqb s name
              | _ => false
              end
  | _ => false
  end.

(** Modelled from the spec: [helper.DoesBackendPoolExists] lives in the
    helper package, which is not part of the source file.  Section 4.1
    step 2c: the name is resolved against the backend-pool collection by
    exact name match, and the not-found error echoes the name searched.
    [None] is Go's nil error. *)
Definition DoesBackendPoolExists (backendPoolName : string)
    (backendPools : list value) : option lookup_error :=
  if existsb (has_name backendPoolName) backendPools then None
  else Some (BackendPoolNotFound backendPoolName).

Definition key_vault_fields : list string :=
  [ "azure_key_vault_certificate_secret_name";
    "azure_key_vault_certificate_secret_version";
    "azure_key_vault_certificate_vault_id" ].

(** A field is populated when it holds a non-empty string; a missing
    field counts as empty. *)
Definition populated (v : value) : bool :=
  match v with
  | VString s => negb (String.eqb s "")
  | _ => false
  end.

(** Modelled from the spec: [helper.AzureKeyVaultCertificateHasValues]
    lives in the helper package, which is not part of the source file.
    Section 4.1 step 4b and section 2: with [MatchAllKeys] it tells
    whether all three key-vault fields are non-empty, without it whether
    any of them is. *)
Definition AzureKeyVaultCertificateHasValues
    (customHttpsConfiguration : gmap string value) (MatchAllKeys : bool) : bool :=
  if MatchAllKeys
  then forallb (fun k => populated (index customHttpsConfiguration k)) key_vault_fields
  else existsb (fun k => populated (index customHttpsConfiguration k)) key_vault_fields.

(** ** The validator *)

(** [*schema.ResourceDiff], as far as the validator uses it. *)
Record ResourceDiff : Type := { Get : string -> value }.

(** Lines 88-95: scan the configured endpoints for the name a routing
    rule lists. *)
Fixpoint frontend_endpoint_found (routingRulefrontendName : string)
    (configFrontendEndpoints : list value) : result bool :=
  match configFrontendEndpoints with
  | [] => Return false
  | configFrontendEndpoint :: rest =>
      configFrontend ← assert_map configFrontendEndpoint;
      let configFrontendName := index configFrontend "name" in
      same ← iface_eq (VString routingRulefrontendName) configFrontendName;
      if same : bool then Return true
      else frontend_endpoint_found routingRulefrontendName rest
  end.

(** Lines 116-124 and 135-143: scan a settings collection for the name a
    backend pool refers to. *)
Fixpoint settings_name_found (backendPoolReference : value)
    (settings : list value) : result bool :=
  match settings with
  | [] => Return false
  | s :: rest =>
      setting ← assert_map s;
      let settingName := index setting "name" in
      same ← iface_eq settingName backendPoolReference;
      if same : bool then Return true
      else settings_name_found backendPoolReference rest
  end.

(** Lines 54-73: checks 0, 1 and 2 of a routing rule. *)
Definition routing_rule_configuration (backendPools : list value)
    (routingRule : gmap string value) : result unit :=
  let routingRuleName := index routingRule "name" in
  redirectConfig ← assert_list (index routingRule "redirect_configuration");
  forwardConfig ← assert_list (index routingRule "forwarding_configuration");
  if Nat.eqb (length redirectConfig) 0 && Nat.eqb (length forwardConfig) 0
  then Fail (RoutingRuleNoConfiguration routingRuleName)
  else if Nat.eqb (length redirectConfig) 1 && Nat.eqb (length forwardConfig) 1
  then Fail (RoutingRuleConflictingConfiguration routingRuleName)
  else if Nat.ltb 0 (length forwardConfig)
  then
    fc0 ← at_index forwardConfig 0;
    fc ← assert_map fc0;
    backendPoolName ← assert_string (index fc "backend_pool_name");
    match DoesBackendPoolExists backendPoolName backendPools with
    | Some err => Fail (RoutingRuleBackendPool routingRuleName err)
    | None => Return ()
    end
  else Return ().

(** Lines 78-100: the body of the loop over a rule's [frontend_endpoints]. *)
Definition routing_rule_frontend (routingRuleName : value)
    (configFrontendEndpoints : list value) (routingRuleFrontend : value)
    : result unit :=
  routingRulefrontendName ← assert_string routingRuleFrontend;
  found ← frontend_endpoint_found routingRulefrontendName configFrontendEndpoints;
  if negb found
  then Fail (RoutingRuleFrontendNotFound routingRuleName routingRulefrontendName)
  else Return ().

(** Lines 76-103: check 3 of a routing rule. *)
Definition routing_rule_frontends (configFrontendEndpoints : list value)
    (routingRule : gmap string value) : result unit :=
  let routingRuleName := index routingRule "name" in
  routingRuleFrontends ← assert_list (index routingRule "frontend_endpoints");
  if Nat.ltb 0 (length routingRuleFrontends)
  then for_each (routing_rule_frontend routingRuleName configFrontendEndpoints)
         routingRuleFrontends
  else Fail (RoutingRuleNoFrontendEndpoints routingRuleName).

(** Lines 49-104: the body of the loop over the routing rules. *)
Definition routing_rule_check (configFrontendEndpoints backendPools : list value)
    (rr : value) : result unit :=
  routingRule ← assert_map rr;
  _ ← routing_rule_configuration backendPools routingRule;
  routing_rule_frontends configFrontendEndpoints routingRule.

(** Lines 115-129 and 134-148: one settings reference of a backend pool;
    [not_found] builds the error of line 127 or of line 146. *)
Definition settings_reference_check (not_found : value -> value -> error)
    (settings : list value) (backendPoolName backendPoolReference : value)
    : result unit :=
  if Nat.ltb 0 (length settings)
  then
    found ← settings_name_found backendPoolReference settings;
    if negb found then Fail (not_found backendPoolName backendPoolReference)
    else Return ()
  else Return ().

(** Lines 107-149: the body of the loop over the backend pools. *)
Definition backend_pool_check (loadBalancingSettings healthProbeSettings : list value)
    (bps : value) : result unit :=
  backendPool ← assert_map bps;
  let backendPoolName := index backendPool "name" in
  let backendPoolLoadBalancingName := index backendPool "load_balancing_name" in
  let backendPoolHealthProbeName := index backendPool "health_probe_name" in
  _ ← settings_reference_check BackendPoolLoadBalancingNotFound
        loadBalancingSettings backendPoolName backendPoolLoadBalancingName;
  settings_reference_check BackendPoolHealthProbeNotFound
    healthProbeSettings backendPoolName backendPoolHealthProbeName.

(** Lines 152-177: the body of the loop over the frontend endpoints. *)
Definition frontend_endpoint_check (configFrontendEndpoint : value) : result unit :=
  configFrontend ← assert_map configFrontendEndpoint;
  if Nat.ltb 0 (size configFrontend)
  then
    let FrontendName := index configFrontend "name" in
    customHttpsEnabled ←
      assert_bool (index configFrontend "custom_https_provisioning_enabled");
    chc ← assert_list (index configFrontend "custom_https_configuration");
    if Nat.ltb 0 (length chc)
    then
      if negb customHttpsEnabled then Fail (CustomHttpsDisabled FrontendName)
      else
        chc0 ← at_index chc 0;
        customHttpsConfiguration ← assert_map chc0;
        let certificateSource := index customHttpsConfiguration "certificate_source" in
        keyVault ← iface_eq certificateSource (VString CertificateSourceAzureKeyVault);
        if keyVault : bool
        then
          if negb (AzureKeyVaultCertificateHasValues customHttpsConfiguration true)
          then Fail (CustomHttpsKeyVaultIncomplete FrontendName)
          else Return ()
        else
          if AzureKeyVaultCertificateHasValues customHttpsConfiguration false
          then Fail (CustomHttpsKeyVaultExtraneous FrontendName)
          else Return ()
    else if customHttpsEnabled then Fail (CustomHttpsUndefined FrontendName)
    else Return ()
  else Return ().

(** Lines 44-179: the checks, on the five collections. *)
Definition FrontdoorSettings_checks (routingRules configFrontendEndpoints backendPools
    loadBalancingSettings healthProbeSettings : list value) : result unit :=
  if Nat.eqb (length configFrontendEndpoints) 0 then Fail NoFrontendEndpoint
  else
    _ ← for_each (routing_rule_check configFrontendEndpoints backendPools) routingRules;
    _ ← for_each (backend_pool_check loadBalancingSettings healthProbeSettings)
          backendPools;
    for_each frontend_endpoint_check configFrontendEndpoints.

(** Lines 37-180. *)
Definition FrontdoorSettings (d : ResourceDiff) : result unit :=
  routingRules ← assert_list (Get d "routing_rule");
  configFrontendEndpoints ← assert_list (Get d "frontend_endpoint");
  backendPools ← assert_list (Get d "backend_pool");
  loadBalancingSettings ← assert_list (Get d "backend_pool_load_balancing");
  healthProbeSettings ← assert_list (Get d "backend_pool_health_probe");
  FrontdoorSettings_checks routingRules configFrontendEndpoints backendPools
    loadBalancingSettings healthProbeSettings.

(** ** The field validator [NoEmptyStrings] *)

(** One constructor per [fmt.Errorf] of [NoEmptyStrings], carrying the
    key interpolated into the message. *)
Inductive field_error : Type :=
| ExpectedString (k : string)       (* line 186 *)
| MustNotBeEmpty (k : string).      (* line 190 *)

(** *** [strings.TrimSpace]

    A Go string is a byte sequence read as UTF-8.  [strings.TrimSpace]
    removes the leading and the trailing white-space runes, white space
    being what [unicode.IsSpace] accepts: the code points with Unicode's
    White_Space property.  The rune decoded at the head (at the tail) of
    a string is one of them exactly when the string starts (ends) with
    the UTF-8 encoding of that code point; an ill-formed sequence decodes
    to U+FFFD, which is not white space. *)

(** U+0009..U+000D, U+0020, U+0085, U+00A0, U+1680, U+2000..U+200A,
    U+2028, U+2029, U+202F, U+205F, U+3000, in UTF-8. *)
Definition space_runes : list (list byte) :=
  [ [x09]; [x0a]; [x0b]; [x0c]; [x0d]; [x20];
    [xc2; x85]; [xc2; xa0];
    [xe1; x9a; x80];
    [xe2; x80; x80]; [xe2; x80; x81]; [xe2; x80; x82]; [xe2; x80; x83];
    [xe2; x80; x84]; [xe2; x80; x85]; [xe2; x80; x86]; [xe2; x80; x87];
    [xe2; x80; x88]; [xe2; x80; x89]; [xe2; x80; x8a];
    [xe2; x80; xa8]; [xe2; x80; xa9]; [xe2; x80; xaf];
    [xe2; x81; x9f];
    [xe3; x80; x80] ].

(** [s] without its prefix [p], when it has that prefix. *)
Fixpoint strip_prefix (p s : list byte) : option (list byte) :=
  match p, s with
  | [], _ => Some s
  | a :: p', b :: s' => if Byte.eqb a b then strip_prefix p' s' else None
  | _ :: _, [] => None
  end.

(** [s] without the one of [runes] it starts with, when it starts with one. *)
Fixpoint strip_first (runes : list (list byte)) (s : list byte)
    : option (list byte) :=
  match runes with
  | [] => None
  | p :: more =>
      match strip_prefix p s with
      | Some rest => Some rest
      | None => strip_first more s
      end
  end.

(** Strip runes from the head for as long as there is one; every round
    consumes at least a byte, so [length s] rounds are enough. *)
Fixpoint trim_runes (runes : list (list byte)) (fuel : nat) (s : list byte)
    : list byte :=
  match fuel with
  | 0 => s
  | S fuel' =>
      match strip_first runes s with
      | Some rest => trim_runes runes fuel' rest
      | None => s
      end
  end.

Definition TrimLeftSpace (s : list byte) : list byte :=
  trim_runes space_runes (length s) s.

(** Trimming the tail is trimming the head of the reversed bytes with the
    reversed encodings. *)
Definition TrimRightSpace (s : list byte) : list byte :=
  reverse (trim_runes (reverse <$> space_runes) (length s) (reverse s)).

Definition TrimSpace (s : string) : string :=
  String.string_of_list_byte
    (TrimRightSpace (TrimLeftSpace (String.list_byte_of_string s))).

(** Lines 183-194.  The results are the warnings and the errors; Go's nil
    slice is the empty list. *)
Definition NoEmptyStrings (i : value) (k : string)
    : list string * list field_error :=
  match i with
  | VString v =>
      if String.eqb (TrimSpace v) "" then ([], [MustNotBeEmpty k])
      else ([], [])
  | _ => ([], [ExpectedString k])
  end.

(** ** Concrete configurations *)

(** A [ResourceDiff] holding the five collections; any other key reads
    as nil. *)
Definition diff_of (routingRules frontendEndpoints backendPools
    loadBalancingSettings healthProbeSettings : list value) : ResourceDiff :=
  {| Get := fun k =>
       if String.eqb k "routing_rule" then VList routingRules
       else if String.eqb k "frontend_endpoint" then VList frontendEndpoints
       else if String.eqb k "backend_pool" then VList backendPools
       else if String.eqb k "backend_pool_load_balancing" then VList loadBalancingSettings
       else if String.eqb k "backend_pool_health_probe" then VList healthProbeSettings
       else VNil |}.

Definition block (fields : list (string * value)) : value :=
  VMap (list_to_map fields).

Definition frontend_endpoint (name : string) (enabled : bool) (chc : list value) : value :=
  block [ ("name", VString name);
          ("custom_https_provisioning_enabled", VBool enabled);
          ("custom_https_configuration", VList chc) ].

Definition routing_rule (name : string) (frontends : list string)
    (redirect forwarding : list value) : value :=
  block [ ("name", VString name);
          ("frontend_endpoints", VList (VString <$> frontends));
          ("redirect_configuration", VList redirect);
          ("forwarding_configuration", VList forwarding) ].

Definition forwarding (backendPoolName : string) : value :=
  block [ ("backend_pool_name", VString backendPoolName) ].

Definition redirect : value :=
  block [ ("redirect_type", VString "Found") ].

Definition backend_pool (name lb hp : string) : value :=
  block [ ("name", VString name);
          ("load_balancing_name", VString lb);
          ("health_probe_name", VString hp) ].

Definition setting (name : string) : value :=
  block [ ("name", VString name) ].

Definition custom_https (source secretName secretVersion vaultId : string) : value :=
  block [ ("certificate_source", VString source);
          ("azure_key_vault_certificate_secret_name", VString secretName);
          ("azure_key_vault_certificate_secret_version", VString secretVersion);
          ("azure_key_vault_certificate_vault_id", VString vaultId) ].

(** End-to-end example 1 of the specification. *)
Definition example1 : ResourceDiff :=
  diff_of [ routing_rule "rr1" ["fe1"] [] [forwarding "bp1"] ]
          [ frontend_endpoint "fe1" false [] ]
          [ backend_pool "bp1" "lb1" "hp1" ]
          [ setting "lb1" ] [ setting "hp1" ].

(** End-to-end example 2. *)
Definition example2 : ResourceDiff :=
  diff_of [ routing_rule "rr1" ["fe1"] [] [forwarding "bp-missing"] ]
          [ frontend_endpoint "fe1" false [] ]
          [ backend_pool "bp1" "lb1" "hp1" ]
          [ setting "lb1" ] [ setting "hp1" ].

(** End-to-end example 3. *)
Definition example3 : ResourceDiff :=
  diff_of [ routing_rule "rr1" ["fe1"] [] [forwarding "bp1"] ]
          [ frontend_endpoint "fe1" true [ custom_https "AzureKeyVault" "" "1" "vault" ] ]
          [ backend_pool "bp1" "lb1" "hp1" ]
          [ setting "lb1" ] [ setting "hp1" ].

(** No frontend endpoint, and more wrong besides: a rule with both
    configuration blocks, a rule that is not even a mapping, a backend
    pool with a dangling load-balancing name. *)
Definition no_endpoints : ResourceDiff :=
  diff_of [ routing_rule "rr1" [] [redirect] [forwarding "bp-missing"]; VInt 7 ]
          []
          [ backend_pool "bp1" "lb-missing" "hp1" ]
          [ setting "lb1" ] [].

(** The second rule has neither configuration block; whatever else is
    wrong with it or after it is not looked at. *)
Definition rule_without_configuration : ResourceDiff :=
  diff_of [ routing_rule "rr1" ["fe1"] [redirect] [];
            routing_rule "rr2" ["fe-missing"] [] [];
            VInt 7 ]
          [ frontend_endpoint "fe1" false [] ] [] [] [].

(** A routing rule carrying both configuration blocks (and dangling
    references besides). *)
Definition both_blocks_rule : gmap string value :=
  list_to_map [ ("name", VString "rr2");
                ("frontend_endpoints", VList [VString "fe-missing"]);
                ("redirect_configuration", VList [redirect]);
                ("forwarding_configuration", VList [forwarding "bp-missing"]) ].

(** The first rule has neither configuration block, the second has both. *)
Definition invalid_rule_before_conflict : ResourceDiff :=
  diff_of [ routing_rule "rr1" ["fe1"] [] []; VMap both_blocks_rule ]
          [ frontend_endpoint "fe1" false [] ]
          [ backend_pool "bp1" "lb1" "hp1" ]
          [ setting "lb1" ] [ setting "hp1" ].

(** The second rule has both configuration blocks; the first is valid. *)
Definition conflict_after_valid_rule : ResourceDiff :=
  diff_of [ routing_rule "rr1" ["fe1"] [redirect] []; VMap both_blocks_rule ]
          [ frontend_endpoint "fe1" false [] ]
          [ backend_pool "bp1" "lb1" "hp1" ]
          [ setting "lb1" ] [ setting "hp1" ].

(** The rule lists a defined endpoint followed by two undefined ones. *)
Definition first_unresolved_frontend : ResourceDiff :=
  diff_of [ routing_rule "rr1" ["fe1"; "fe-x"; "fe-y"] [redirect] [] ]
          [ frontend_endpoint "fe1" false [] ] [] [] [].

(** The second pool names a load-balancing settings block that is not
    among the defined ones. *)
Definition dangling_load_balancing : ResourceDiff :=
  diff_of [ routing_rule "rr1" ["fe1"] [] [forwarding "bp1"] ]
          [ frontend_endpoint "fe1" false [] ]
          [ backend_pool "bp1" "lb1" "hp1"; backend_pool "bp2" "lb-missing" "hp1" ]
          [ setting "lb1" ] [ setting "hp1" ].

(** The pool names settings blocks although none is defined at all. *)
Definition no_settings_defined : ResourceDiff :=
  diff_of [ routing_rule "rr1" ["fe1"] [] [forwarding "bp1"] ]
          [ frontend_endpoint "fe1" false [] ]
          [ backend_pool "bp1" "lb-missing" "hp-missing" ]
          [] [].

(** The second endpoint carries a TLS block although provisioning is
    disabled. *)
Definition custom_https_while_disabled : ResourceDiff :=
  diff_of [ routing_rule "rr1" ["fe1"] [] [forwarding "bp1"] ]
          [ frontend_endpoint "fe1" false [];
            frontend_endpoint "fe2" false [ custom_https "FrontDoor" "" "" "" ] ]
          [ backend_pool "bp1" "lb1" "hp1" ]
          [ setting "lb1" ] [ setting "hp1" ].

(** The endpoint omits its optional [custom_https_configuration] block
    altogether instead of carrying an empty one. *)
Definition missing_optional_block : ResourceDiff :=
  diff_of [ routing_rule "rr1" ["fe1"] [redirect] [] ]
          [ block [ ("name", VString "fe1");
                    ("custom_https_provisioning_enabled", VBool false) ] ]
          [] [] [].

(** Example 1 with every collection holding repeated entries and
    repeated names. *)
Definition duplicated_entries : ResourceDiff :=
  diff_of [ routing_rule "rr1" ["fe1"] [] [forwarding "bp1"];
            routing_rule "rr1" ["fe1"] [] [forwarding "bp1"] ]
          [ frontend_endpoint "fe1" false []; frontend_endpoint "fe1" false [] ]
          [ backend_pool "bp1" "lb1" "hp1"; backend_pool "bp1" "lb1" "hp1" ]
          [ setting "lb1"; setting "lb1" ]
          [ setting "hp1"; setting "hp1"; setting "hp1" ].

(** Example 1 with a key-vault certificate on its endpoint. *)
Definition example_key_vault : ResourceDiff :=
  diff_of [ routing_rule "rr1" ["fe1"] [] [forwarding "bp1"] ]
          [ frontend_endpoint "fe1" true
              [ custom_https "AzureKeyVault" "secret" "1" "vault" ] ]
          [ backend_pool "bp1" "lb1" "hp1" ]
          [ setting "lb1" ] [ setting "hp1" ].

(** Example 1 whose settings entries carry further fields and other
    values than the defaults. *)
Definition example1_tuned_settings : ResourceDiff :=
  diff_of [ routing_rule "rr1" ["fe1"] [] [forwarding "bp1"] ]
          [ frontend_endpoint "fe1" false [] ]
          [ backend_pool "bp1" "lb1" "hp1" ]
          [ block [ ("name", VString "lb1"); ("sample_size", VInt 8) ] ]
          [ block [ ("name", VString "hp1"); ("path", VString "/health") ] ].

(** ** Vocabulary of the statements *)

(** The five collections [d.Get] delivers. *)
Definition collections (d : ResourceDiff) (routingRules frontendEndpoints backendPools
    loadBalancingSettings healthProbeSettings : list value) : Prop :=
  Get d "routing_rule" = VList routingRules ∧
  Get d "frontend_endpoint" = VList frontendEndpoints ∧
  Get d "backend_pool" = VList backendPools ∧
  Get d "backend_pool_load_balancing" = VList loadBalancingSettings ∧
  Get d "backend_pool_health_probe" = VList healthProbeSettings.

(** Values Go compares without a panic whatever the other operand is. *)
Definition scalar (v : value) : Prop :=
  match v with VList _ | VMap _ => False | _ => True end.

(** No entry of the collection is named [ref]. *)
Definition unresolved (ref : value) (entries : list value) : Prop :=
  Forall (fun entry => ∃ m, entry = VMap m ∧ index m "name" ≠ ref) entries.

(** Some entry of the collection is named [ref]. *)
Definition resolved (ref : value) (entries : list value) : Prop :=
  ∃ m, VMap m ∈ entries ∧ index m "name" = ref.

(** Both configuration blocks of a routing rule are present. *)
Definition both_configurations (rule : gmap string value) : Prop :=
  ∃ r f, index rule "redirect_configuration" = VList [r] ∧
         index rule "forwarding_configuration" = VList [f].

(** Two collections with the same entries, whatever their order and
    however often each entry is repeated. *)
Definition same_entries (l l' : list value) : Prop :=
  ∀ x, x ∈ l ↔ x ∈ l'.

Definition all_maps (entries : list value) : Prop :=
  Forall (fun entry => ∃ m, entry = VMap m) entries.

(** *** Shape of a configuration tree

    The shape the schema layer delivers: every collection is a list,
    every entry a mapping, every optional block a (possibly empty) list
    under its key, every field the validator asserts of its type. *)

Definition is_scalar (v : value) : bool :=
  match v with VList _ | VMap _ => false | _ => true end.

Definition is_string (v : value) : bool :=
  match v with VString _ => true | _ => false end.

Definition is_map (v : value) : bool :=
  match v with VMap _ => true | _ => false end.

(** A forwarding block list: empty, or headed by a mapping whose
    [backend_pool_name] is a string (only the head is ever read). *)
Definition wf_forwarding (forwardConfig : list value) : bool :=
  match forwardConfig with
  | [] => true
  | VMap fc :: _ => is_string (index fc "backend_pool_name")
  | _ :: _ => false
  end.

Definition wf_routing_rule (rr : value) : bool :=
  match rr with
  | VMap m =>
      match index m "redirect_configuration",
            index m "forwarding_configuration",
            index m "frontend_endpoints" with
      | VList _, VList forwardConfig, VList frontends =>
          wf_forwarding forwardConfig && forallb is_string frontends
      | _, _, _ => false
      end
  | _ => false
  end.

Definition wf_backend_pool (bp : value) : bool :=
  match bp with
  | VMap m => is_scalar (index m "load_balancing_name") &&
              is_scalar (index m "health_probe_name")
  | _ => false
  end.

(** A TLS block list: empty, or headed by a mapping. *)
Definition wf_custom_https (chc : list value) : bool :=
  match chc with
  | [] => true
  | chc0 :: _ => is_map chc0
  end.

Definition wf_frontend_endpoint (fe : value) : bool :=
  match fe with
  | VMap m =>
      match index m "custom_https_provisioning_enabled",
            index m "custom_https_configuration" with
      | VBool _, VList chc => wf_custom_https chc
      | _, _ => false
      end
  | _ => false
  end.

Definition wf_diff (d : ResourceDiff) : bool :=
  match Get d "routing_rule", Get d "frontend_endpoint", Get d "backend_pool",
        Get d "backend_pool_load_balancing", Get d "backend_pool_health_probe" with
  | VList rrs, VList fes, VList bps, VList lbs, VList hps =>
      forallb wf_routing_rule rrs && forallb wf_frontend_endpoint fes &&
      forallb wf_backend_pool bps && forallb is_map lbs && forallb is_map hps
  | _, _, _, _, _ => false
  end.

(** The call returned: with nil, or with exactly one error. *)
Definition returns (r : result unit) : Prop :=
  r = Return () ∨ ∃ e, r = Fail e.

(** *** What an accepted configuration satisfies *)

(** Checks 0 and 1: the two block lists are not both empty and do not
    hold exactly one block each. *)
Definition has_configuration_type (rule : gmap string value) : Prop :=
  ∃ redirectConfig forwardConfig,
    index rule "redirect_configuration" = VList redirectConfig ∧
    index rule "forwarding_configuration" = VList forwardConfig ∧
    ¬ (redirectConfig = [] ∧ forwardConfig = []) ∧
    ¬ (length redirectConfig = 1 ∧ length forwardConfig = 1).

(** Check 2: the first forwarding block, when there is one, names a
    backend pool of the collection. *)
Definition forwarding_resolved (backendPools : list value)
    (rule : gmap string value) : Prop :=
  ∀ fc0 more,
    index rule "forwarding_configuration" = VList (fc0 :: more) →
    ∃ fc name, fc0 = VMap fc ∧
      index fc "backend_pool_name" = VString name ∧
      resolved (VString name) backendPools.

(** Check 3: the rule lists at least one name, and only names of
    configured endpoints. *)
Definition frontends_resolved (frontendEndpoints : list value)
    (rule : gmap string value) : Prop :=
  ∃ names, names ≠ [] ∧
    index rule "frontend_endpoints" = VList (VString <$> names) ∧
    ∀ n, n ∈ names → resolved (VString n) frontendEndpoints.

(** A settings reference of a backend pool: looked up only in a
    non-empty collection. *)
Definition settings_resolved (settings : list value) (ref : value) : Prop :=
  settings ≠ [] → scalar ref ∧ resolved ref settings.

(** The TLS block is there exactly when provisioning is enabled. *)
Definition custom_https_matches_flag (fe : gmap string value) : Prop :=
  ∃ enabled chc,
    index fe "custom_https_provisioning_enabled" = VBool enabled ∧
    index fe "custom_https_configuration" = VList chc ∧
    (enabled = true ↔ chc ≠ []).

(** The key-vault fields go with the key-vault source, all or none. *)
Definition key_vault_consistent (config : gmap string value) : Prop :=
  (index config "certificate_source" = VString CertificateSourceAzureKeyVault →
   ∀ k, k ∈ key_vault_fields → populated (index config k) = true) ∧
  (index config "certificate_source" ≠ VString CertificateSourceAzureKeyVault →
   ∀ k, k ∈ key_vault_fields → populated (index config k) = false).

Definition custom_https_consistent (fe : gmap string value) : Prop :=
  ∀ chc0 more,
    index fe "custom_https_configuration" = VList (chc0 :: more) →
    ∃ config, chc0 = VMap config ∧ key_vault_consistent config.

(** *** Where a verdict comes from *)

(** [e] is the error of the first check that does not pass, in the order
    endpoint presence, routing rules, backend pools, frontend endpoints. *)
Definition first_failure (rrs fes bps lbs hps : list value) (e : error) : Prop :=
  (fes = [] ∧ e = NoFrontendEndpoint) ∨
  (fes ≠ [] ∧
   ∃ pre rr post, rrs = pre ++ rr :: post ∧
     for_each (routing_rule_check fes bps) pre = Return () ∧
     routing_rule_check fes bps rr = Fail e) ∨
  (fes ≠ [] ∧
   for_each (routing_rule_check fes bps) rrs = Return () ∧
   ∃ pre bp post, bps = pre ++ bp :: post ∧
     for_each (backend_pool_check lbs hps) pre = Return () ∧
     backend_pool_check lbs hps bp = Fail e) ∨
  (for_each (routing_rule_check fes bps) rrs = Return () ∧
   for_each (backend_pool_check lbs hps) bps = Return () ∧
   ∃ pre fe post, fes = pre ++ fe :: post ∧
     for_each frontend_endpoint_check pre = Return () ∧
     frontend_endpoint_check fe = Fail e).

(** The defect of the configuration that each error stands for. *)
Inductive defect (rrs fes bps lbs hps : list value) : error → Prop :=
| defect_no_endpoint :
    fes = [] →
    defect rrs fes bps lbs hps NoFrontendEndpoint
| defect_no_configuration rule :
    VMap rule ∈ rrs →
    index rule "redirect_configuration" = VList [] →
    index rule "forwarding_configuration" = VList [] →
    defect rrs fes bps lbs hps (RoutingRuleNoConfiguration (index rule "name"))
| defect_conflicting_configuration rule :
    VMap rule ∈ rrs →
    both_configurations rule →
    defect rrs fes bps lbs hps
      (RoutingRuleConflictingConfiguration (index rule "name"))
| defect_backend_pool rule fc more name :
    VMap rule ∈ rrs →
    index rule "forwarding_configuration" = VList (VMap fc :: more) →
    index fc "backend_pool_name" = VString name →
    ¬ resolved (VString name) bps →
    defect rrs fes bps lbs hps
      (RoutingRuleBackendPool (index rule "name") (BackendPoolNotFound name))
| defect_no_frontends rule :
    VMap rule ∈ rrs →
    index rule "frontend_endpoints" = VList [] →
    defect rrs fes bps lbs hps (RoutingRuleNoFrontendEndpoints (index rule "name"))
| defect_frontend rule names name :
    VMap rule ∈ rrs →
    index rule "frontend_endpoints" = VList names →
    VString name ∈ names →
    ¬ resolved (VString name) fes →
    defect rrs fes bps lbs hps
      (RoutingRuleFrontendNotFound (index rule "name") name)
| defect_load_balancing pool :
    VMap pool ∈ bps →
    lbs ≠ [] →
    ¬ resolved (index pool "load_balancing_name") lbs →
    defect rrs fes bps lbs hps
      (BackendPoolLoadBalancingNotFound
         (index pool "name") (index pool "load_balancing_name"))
| defect_health_probe pool :
    VMap pool ∈ bps →
    hps ≠ [] →
    ¬ resolved (index pool "health_probe_name") hps →
    defect rrs fes bps lbs hps
      (BackendPoolHealthProbeNotFound
         (index pool "name") (index pool "health_probe_name"))
| defect_https_disabled fe chc :
    VMap fe ∈ fes →
    index fe "custom_https_provisioning_enabled" = VBool false →
    index fe "custom_https_configuration" = VList chc →
    chc ≠ [] →
    defect rrs fes bps lbs hps (CustomHttpsDisabled (index fe "name"))
| defect_https_undefined fe :
    VMap fe ∈ fes →
    index fe "custom_https_provisioning_enabled" = VBool true →
    index fe "custom_https_configuration" = VList [] →
    defect rrs fes bps lbs hps (CustomHttpsUndefined (index fe "name"))
| defect_key_vault_incomplete fe config more k :
    VMap fe ∈ fes →
    index fe "custom_https_provisioning_enabled" = VBool true →
    index fe "custom_https_configuration" = VList (VMap config :: more) →
    index config "certificate_source" = VString CertificateSourceAzureKeyVault →
    k ∈ key_vault_fields →
    populated (index config k) = false →
    defect rrs fes bps lbs hps (CustomHttpsKeyVaultIncomplete (index fe "name"))
| defect_key_vault_extraneous fe config more k :
    VMap fe ∈ fes →
    index fe "custom_https_provisioning_enabled" = VBool true →
    index fe "custom_https_configuration" = VList (VMap config :: more) →
    index config "certificate_source" ≠ VString CertificateSourceAzureKeyVault →
    k ∈ key_vault_fields →
    populated (index config k) = true →
    defect rrs fes bps lbs hps (CustomHttpsKeyVaultExtraneous (index fe "name")).

(** Two entries that are mappings with the same [name]. *)
Definition same_name (a b : value) : Prop :=
  ∃ ma mb, a = VMap ma ∧ b = VMap mb ∧ index ma "name" = index mb "name".

(** *** White space *)

(** A byte sequence made of the given runes and nothing else. *)
Inductive tiled (runes : list (list byte)) : list byte → Prop :=
| tiled_nil : tiled runes []
| tiled_rune p s : p ∈ runes → tiled runes s → tiled runes (p ++ s).

(** A string of white-space runes only (the empty string included). *)
Definition blank (v : string) : Prop :=
  tiled space_runes (String.list_byte_of_string v).

(** The white space of ASCII: tab, line feed, vertical tab, form feed,
    carriage return, space. *)
Definition ascii_spaces : list byte := [x09; x0a; x0b; x0c; x0d; x20].

Definition is_ascii (b : byte) : Prop := (Byte.to_N b < 128)%N.

Arguments index : simpl never.
Arguments AzureKeyVaultCertificateHasValues : simpl never.

(** ** Loops *)

Section for_each_facts.
Variable body : value -> result unit.

Lemma for_each_app l1 l2 :
  for_each body (l1 ++ l2) = (for_each body l1 ≫= fun _ => for_each body l2).
Proof.
  induction l1 as [|x l1 IH]; simpl; [done|].
  destruct (body x); simpl; done.
Qed.

Lemma for_each_pass l :
  for_each body l = Return () ↔ Forall (fun x => body x = Return ()) l.
Proof.
  induction l as [|x l IH]; simpl.
  - split; [constructor | done].
  - rewrite Forall_cons. destruct (body x) as [[]| |]; simpl.
    + rewrite IH. tauto.
    + split; [done | intros [? _]; done].
    + split; [done | intros [? _]; done].
Qed.

Lemma for_each_fail pre x post e :
  for_each body pre = Return () → body x = Fail e →
  for_each body (pre ++ x :: post) = Fail e.
Proof.
  intros Hpre Hx. rewrite for_each_app, Hpre. simpl. by rewrite Hx.
Qed.

End for_each_facts.

(** ** The validator, check by check *)

Lemma FrontdoorSettings_collections d rrs fes bps lbs hps :
  collections d rrs fes bps lbs hps →
  FrontdoorSettings d = FrontdoorSettings_checks rrs fes bps lbs hps.
Proof.
  intros (Hrr & Hfe & Hbp & Hlb & Hhp). unfold FrontdoorSettings.
  rewrite Hrr, Hfe, Hbp, Hlb, Hhp. reflexivity.
Qed.

Lemma length_nonzero {A} (l : list A) : l ≠ [] → Nat.eqb (length l) 0 = false.
Proof. destruct l; [done | reflexivity]. Qed.

Lemma length_positive {A} (l : list A) : l ≠ [] → Nat.ltb 0 (length l) = true.
Proof. destruct l; [done | reflexivity]. Qed.

(** The first routing rule whose check returns an error decides. *)
Lemma FrontdoorSettings_at_routing_rule d rrs fes bps lbs hps pre rr post e :
  collections d rrs fes bps lbs hps → fes ≠ [] →
  rrs = pre ++ rr :: post →
  for_each (routing_rule_check fes bps) pre = Return () →
  routing_rule_check fes bps rr = Fail e →
  FrontdoorSettings d = Fail e.
Proof.
  intros Hd Hfes -> Hpre Hrr.
  rewrite (FrontdoorSettings_collections _ _ _ _ _ _ Hd).
  unfold FrontdoorSettings_checks. rewrite (length_nonzero _ Hfes).
  by rewrite (for_each_fail _ _ _ _ _ Hpre Hrr).
Qed.

(** Once the routing rules pass, the first backend pool whose check
    returns an error decides. *)
Lemma FrontdoorSettings_at_backend_pool d rrs fes bps lbs hps pre bp post e :
  collections d rrs fes bps lbs hps → fes ≠ [] →
  for_each (routing_rule_check fes bps) rrs = Return () →
  bps = pre ++ bp :: post →
  for_each (backend_pool_check lbs hps) pre = Return () →
  backend_pool_check lbs hps bp = Fail e →
  FrontdoorSettings d = Fail e.
Proof.
  intros Hd Hfes Hrrs Hbps Hpre Hbp.
  rewrite (FrontdoorSettings_collections _ _ _ _ _ _ Hd).
  unfold FrontdoorSettings_checks. rewrite (length_nonzero _ Hfes), Hrrs. simpl.
  rewrite Hbps. by rewrite (for_each_fail _ _ _ _ _ Hpre Hbp).
Qed.

(** Once the routing rules and the backend pools pass, the first
    frontend endpoint whose check returns an error decides. *)
Lemma FrontdoorSettings_at_frontend_endpoint d rrs fes bps lbs hps pre fe post e :
  collections d rrs fes bps lbs hps →
  for_each (routing_rule_check fes bps) rrs = Return () →
  for_each (backend_pool_check lbs hps) bps = Return () →
  fes = pre ++ fe :: post →
  for_each frontend_endpoint_check pre = Return () →
  frontend_endpoint_check fe = Fail e →
  FrontdoorSettings d = Fail e.
Proof.
  intros Hd Hrrs Hbps Hfes Hpre Hfe.
  rewrite (FrontdoorSettings_collections _ _ _ _ _ _ Hd).
  unfold FrontdoorSettings_checks.
  rewrite length_nonzero by (rewrite Hfes; by destruct pre).
  rewrite Hrrs, Hbps. simpl.
  rewrite Hfes. by rewrite (for_each_fail _ _ _ _ _ Hpre Hfe).
Qed.

(** ** Endpoint presence *)

(** C8.  A configuration whose frontend-endpoint collection is empty fails
    with MissingRequiredCollection.  The check comes first: nothing is
    assumed about what the other four collections contain, so the
    verdict stands whatever violations they hold. *)
Theorem empty_frontend_endpoints_rejected d rrs bps lbs hps :
  collections d rrs [] bps lbs hps →
  FrontdoorSettings d = Fail NoFrontendEndpoint ∧
  kind NoFrontendEndpoint = MissingRequiredCollection.
Proof.
  intros Hd. by rewrite (FrontdoorSettings_collections _ _ _ _ _ _ Hd).
Qed.

Lemma empty_frontend_endpoints_rejected_witness :
  FrontdoorSettings no_endpoints = Fail NoFrontendEndpoint ∧
  kind NoFrontendEndpoint = MissingRequiredCollection.
Proof.
  apply (empty_frontend_endpoints_rejected no_endpoints
           [ routing_rule "rr1" [] [redirect] [forwarding "bp-missing"]; VInt 7 ]
           [ backend_pool "bp1" "lb-missing" "hp1" ]
           [ setting "lb1" ] []).
  repeat split; reflexivity.
Defined.

(** ** Routing rules *)

Lemma routing_rule_check_unfold fes bps rule :
  routing_rule_check fes bps (VMap rule) =
  (routing_rule_configuration bps rule ≫= fun _ => routing_rule_frontends fes rule).
Proof. reflexivity. Qed.

Lemma routing_rule_without_configuration bps rule :
  index rule "redirect_configuration" = VList [] →
  index rule "forwarding_configuration" = VList [] →
  routing_rule_configuration bps rule =
  Fail (RoutingRuleNoConfiguration (index rule "name")).
Proof.
  intros Hr Hf. unfold routing_rule_configuration. by rewrite Hr, Hf.
Qed.

Lemma routing_rule_conflicting_configuration bps rule r f :
  index rule "redirect_configuration" = VList [r] →
  index rule "forwarding_configuration" = VList [f] →
  routing_rule_configuration bps rule =
  Fail (RoutingRuleConflictingConfiguration (index rule "name")).
Proof.
  intros Hr Hf. unfold routing_rule_configuration. by rewrite Hr, Hf.
Qed.

(** C6.  A routing rule with neither a redirect nor a forwarding
    configuration makes validation fail with MissingConfigurationBlock
    naming the rule, once validation reaches it (some endpoint is
    configured and the rules declared before it pass).  Nothing is
    assumed about the rule's [frontend_endpoints] or about the backend
    pools: the check precedes every other check on the rule. *)
Theorem missing_configuration_block_rejected d rrs fes bps lbs hps pre rule post :
  collections d rrs fes bps lbs hps → fes ≠ [] →
  rrs = pre ++ VMap rule :: post →
  for_each (routing_rule_check fes bps) pre = Return () →
  index rule "redirect_configuration" = VList [] →
  index rule "forwarding_configuration" = VList [] →
  let e := RoutingRuleNoConfiguration (index rule "name") in
  FrontdoorSettings d = Fail e ∧
  kind e = MissingConfigurationBlock ∧ mentions e = [index rule "name"].
Proof.
  intros Hd Hfes Hrrs Hpre Hr Hf e. repeat split.
  eapply FrontdoorSettings_at_routing_rule; [done..|].
  rewrite routing_rule_check_unfold.
  by rewrite routing_rule_without_configuration.
Qed.

Lemma missing_configuration_block_rejected_witness :
  FrontdoorSettings rule_without_configuration =
  Fail (RoutingRuleNoConfiguration (VString "rr2")).
Proof.
  refine (proj1 (missing_configuration_block_rejected rule_without_configuration
           _ [frontend_endpoint "fe1" false []] [] [] []
           [routing_rule "rr1" ["fe1"] [redirect] []]
           (list_to_map [ ("name", VString "rr2");
                          ("frontend_endpoints", VList [VString "fe-missing"]);
                          ("redirect_configuration", VList []);
                          ("forwarding_configuration", VList []) ])
           [VInt 7] _ _ _ _ _ _)).
  - repeat split; reflexivity.
  - discriminate.
  - reflexivity.
  - vm_compute. reflexivity.
  - vm_compute. reflexivity.
  - vm_compute. reflexivity.
Defined.

Lemma collections_diff_of rrs fes bps lbs hps :
  collections (diff_of rrs fes bps lbs hps) rrs fes bps lbs hps.
Proof. repeat split; reflexivity. Qed.

(** A configuration holding a rule with both blocks is never accepted. *)
Lemma conflicting_rule_never_accepted d rrs fes bps lbs hps rule :
  collections d rrs fes bps lbs hps →
  VMap rule ∈ rrs → both_configurations rule →
  FrontdoorSettings d ≠ Return ().
Proof.
  intros Hd Hin (r & f & Hr & Hf).
  rewrite (FrontdoorSettings_collections _ _ _ _ _ _ Hd).
  unfold FrontdoorSettings_checks.
  destruct (Nat.eqb (length fes) 0); [done|].
  destruct (for_each (routing_rule_check fes bps) rrs) as [[]| |] eqn:Hloop; [|done..].
  apply for_each_pass in Hloop. rewrite Forall_forall in Hloop.
  specialize (Hloop _ Hin). rewrite routing_rule_check_unfold in Hloop.
  by rewrite (routing_rule_conflicting_configuration _ _ _ _ Hr Hf) in Hloop.
Qed.

(** C5, as the code has it.  A routing rule with both a redirect and a
    forwarding configuration makes validation fail: the configuration is
    never accepted, and when every rule declared before it passes its
    checks the verdict is ConflictingConfigurationBlocks naming that rule,
    which is then the first rule with both blocks. *)
Theorem conflicting_configuration_blocks_rejected
    d rrs fes bps lbs hps pre rule post :
  collections d rrs fes bps lbs hps → fes ≠ [] →
  rrs = pre ++ VMap rule :: post →
  both_configurations rule →
  FrontdoorSettings d ≠ Return () ∧
  (for_each (routing_rule_check fes bps) pre = Return () →
   let e := RoutingRuleConflictingConfiguration (index rule "name") in
   FrontdoorSettings d = Fail e ∧
   kind e = ConflictingConfigurationBlocks ∧ mentions e = [index rule "name"] ∧
   ∀ earlier, VMap earlier ∈ pre → ¬ both_configurations earlier).
Proof.
  intros Hd Hfes Hrrs Hboth. split.
  - eapply conflicting_rule_never_accepted; [done| |done].
    rewrite Hrrs. apply elem_of_app. right. apply list_elem_of_here.
  - intros Hpre e. repeat split.
    + eapply FrontdoorSettings_at_routing_rule; [done..|].
      destruct Hboth as (r & f & Hr & Hf). rewrite routing_rule_check_unfold.
      by rewrite (routing_rule_conflicting_configuration _ _ _ _ Hr Hf).
    + intros earlier Hin (r & f & Hr & Hf).
      apply for_each_pass in Hpre. rewrite Forall_forall in Hpre.
      specialize (Hpre _ Hin). rewrite routing_rule_check_unfold in Hpre.
      by rewrite (routing_rule_conflicting_configuration _ _ _ _ Hr Hf) in Hpre.
Qed.

Lemma both_blocks_rule_both : both_configurations both_blocks_rule.
Proof.
  exists redirect, (forwarding "bp-missing"). split; vm_compute; reflexivity.
Qed.

Lemma conflicting_configuration_blocks_rejected_witness :
  FrontdoorSettings conflict_after_valid_rule =
  Fail (RoutingRuleConflictingConfiguration (VString "rr2")).
Proof.
  refine (proj1 (proj2 (conflicting_configuration_blocks_rejected
    conflict_after_valid_rule _ _ _ _ _
    [routing_rule "rr1" ["fe1"] [redirect] []] both_blocks_rule []
    (collections_diff_of _ _ _ _ _) _ _ both_blocks_rule_both) _)).
  - discriminate.
  - reflexivity.
  - vm_compute. reflexivity.
Defined.

(** C5, as the specification words it, fails.  Some endpoint is
    configured and the second rule has both blocks, yet the verdict is
    the MissingConfigurationBlock of the invalid rule declared before
    it, not ConflictingConfigurationBlocks. *)
Lemma conflicting_blocks_masked_by_earlier_rule :
  Get invalid_rule_before_conflict "frontend_endpoint" =
    VList [frontend_endpoint "fe1" false []] ∧
  Get invalid_rule_before_conflict "routing_rule" =
    VList [routing_rule "rr1" ["fe1"] [] []; VMap both_blocks_rule] ∧
  both_configurations both_blocks_rule ∧
  FrontdoorSettings invalid_rule_before_conflict =
    Fail (RoutingRuleNoConfiguration (VString "rr1")) ∧
  kind (RoutingRuleNoConfiguration (VString "rr1")) ≠ ConflictingConfigurationBlocks ∧
  ¬ ∃ e, FrontdoorSettings invalid_rule_before_conflict = Fail e ∧
         kind e = ConflictingConfigurationBlocks.
Proof.
  assert (FrontdoorSettings invalid_rule_before_conflict =
          Fail (RoutingRuleNoConfiguration (VString "rr1"))) as Hverdict
    by (vm_compute; reflexivity).
  split; [reflexivity|]. split; [reflexivity|].
  split; [apply both_blocks_rule_both|]. split; [exact Hverdict|].
  split; [discriminate|].
  intros (e & He & Hk). rewrite Hverdict in He. injection He as <-. discriminate.
Qed.

(** ** Name lookups *)

Lemma has_name_map name m :
  has_name name (VMap m) = true ↔ index m "name" = VString name.
Proof.
  unfold has_name. destruct (index m "name") as [|s| | | |]; try (split; done).
  rewrite String.eqb_eq. split; [by intros -> | by intros [= ->]].
Qed.

Lemma DoesBackendPoolExists_found name bps :
  DoesBackendPoolExists name bps = None ↔ resolved (VString name) bps.
Proof.
  unfold DoesBackendPoolExists, resolved.
  destruct (existsb (has_name name) bps) eqn:Hex.
  - split; [intros _ | done].
    apply existsb_exists in Hex as (entry & Hin & Hname).
    destruct entry as [| | | | |m]; try done.
    exists m. split; [by apply list_elem_of_In | by apply has_name_map].
  - split; [done|]. intros (m & Hin & Hname).
    assert (existsb (has_name name) bps = true) as Hex'; [|congruence].
    apply existsb_exists. exists (VMap m).
    split; [by apply list_elem_of_In | by apply has_name_map].
Qed.

Lemma DoesBackendPoolExists_not_found name bps :
  (∀ pool, VMap pool ∈ bps → index pool "name" ≠ VString name) →
  DoesBackendPoolExists name bps = Some (BackendPoolNotFound name).
Proof.
  intros Hno. destruct (DoesBackendPoolExists name bps) as [err|] eqn:Hex.
  - unfold DoesBackendPoolExists in Hex.
    by destruct (existsb (has_name name) bps); simplify_eq.
  - apply DoesBackendPoolExists_found in Hex as (m & Hin & Hname).
    by destruct (Hno m Hin).
Qed.

(** C7.  A routing rule whose forwarding configuration names a backend
    pool that no entry of the backend-pool collection carries (string
    equality, so case matters) makes validation fail with
    DanglingReference; the message interpolates the rule's name and the
    unresolved pool name.  The rule is one validation reaches and one
    that does not already fail the conflicting-blocks check.  Nothing is
    assumed about its [frontend_endpoints]: this check precedes them. *)
Theorem dangling_backend_pool_rejected
    d rrs fes bps lbs hps pre rule post redirectConfig fc more name :
  collections d rrs fes bps lbs hps → fes ≠ [] →
  rrs = pre ++ VMap rule :: post →
  for_each (routing_rule_check fes bps) pre = Return () →
  index rule "redirect_configuration" = VList redirectConfig →
  index rule "forwarding_configuration" = VList (VMap fc :: more) →
  ¬ (length redirectConfig = 1 ∧ more = []) →
  index fc "backend_pool_name" = VString name →
  (∀ pool, VMap pool ∈ bps → index pool "name" ≠ VString name) →
  let e := RoutingRuleBackendPool (index rule "name") (BackendPoolNotFound name) in
  FrontdoorSettings d = Fail e ∧
  kind e = DanglingReference ∧
  mentions e = [index rule "name"; VString name].
Proof.
  intros Hd Hfes Hrrs Hpre Hr Hf Hone Hname Hno e. repeat split.
  eapply FrontdoorSettings_at_routing_rule; [done..|].
  rewrite routing_rule_check_unfold. unfold routing_rule_configuration.
  rewrite Hr, Hf. simpl. rewrite andb_false_r.
  replace (Nat.eqb (length redirectConfig) 1 && Nat.eqb (length more) 0) with false.
  - simpl. rewrite Hname. simpl.
    by rewrite (DoesBackendPoolExists_not_found _ _ Hno).
  - symmetry. apply andb_false_iff.
    destruct (Nat.eqb (length redirectConfig) 1) eqn:H1; [right | by left].
    destruct more; [|done]. apply Nat.eqb_eq in H1. by destruct Hone.
Qed.

(** End-to-end example 2 of the specification. *)
Lemma dangling_backend_pool_rejected_witness :
  FrontdoorSettings example2 =
  Fail (RoutingRuleBackendPool (VString "rr1") (BackendPoolNotFound "bp-missing")) ∧
  mentions (RoutingRuleBackendPool (VString "rr1") (BackendPoolNotFound "bp-missing"))
  = [VString "rr1"; VString "bp-missing"].
Proof.
  split; [|reflexivity].
  refine (proj1 (dangling_backend_pool_rejected example2 _ _ _ _ _ []
    (list_to_map [ ("name", VString "rr1");
                   ("frontend_endpoints", VList [VString "fe1"]);
                   ("redirect_configuration", VList []);
                   ("forwarding_configuration", VList [forwarding "bp-missing"]) ])
    [] [] (list_to_map [("backend_pool_name", VString "bp-missing")]) [] "bp-missing"
    (collections_diff_of _ _ _ _ _) _ _ _ _ _ _ _ _)).
  - discriminate.
  - reflexivity.
  - reflexivity.
  - vm_compute. reflexivity.
  - vm_compute. reflexivity.
  - simpl. intros [? _]. discriminate.
  - vm_compute. reflexivity.
  - intros pool Hin%list_elem_of_singleton. injection Hin as ->.
    vm_compute. discriminate.
Defined.

(** The comparison is case-sensitive: ["BP1"] does not resolve ["bp1"]. *)
Example backend_pool_name_case_sensitive :
  DoesBackendPoolExists "BP1" [backend_pool "bp1" "lb1" "hp1"] =
  Some (BackendPoolNotFound "BP1").
Proof. reflexivity. Qed.

Lemma iface_eq_sym a b : iface_eq a b = iface_eq b a.
Proof.
  destruct a, b; simpl; try done.
  - by rewrite String.eqb_sym.
  - by destruct b, b0.
  - by rewrite Z.eqb_sym.
Qed.

(** Against a scalar, [==] decides equality and cannot panic. *)
Lemma iface_eq_scalar a b :
  scalar b →
  (iface_eq a b = Return true ∧ a = b) ∨ (iface_eq a b = Return false ∧ a ≠ b).
Proof.
  intros Hb. destruct a, b; simpl in *; try done; try (right; by split).
  - by left.
  - destruct (String.eqb_spec s s0) as [->|Hne]; [by left | right].
    split; [done | by intros [= ->]].
  - destruct b, b0; simpl; (by left) || (right; by split).
  - destruct (Z.eqb_spec n n0) as [->|Hne]; [by left | right].
    split; [done | by intros [= ->]].
Qed.

Lemma unresolved_all_maps ref entries : unresolved ref entries → all_maps entries.
Proof.
  intros Hno. eapply Forall_impl; [exact Hno|].
  intros entry (m & -> & _). by exists m.
Qed.

Lemma settings_name_found_unresolved ref settings :
  scalar ref → unresolved ref settings →
  settings_name_found ref settings = Return false.
Proof.
  intros Href. induction 1 as [|entry rest (m & -> & Hne) _ IH]; simpl; [done|].
  destruct (iface_eq_scalar (index m "name") ref Href) as [[_ ?]|[-> _]]; done.
Qed.

Lemma settings_name_found_resolved ref settings :
  scalar ref → all_maps settings → resolved ref settings →
  settings_name_found ref settings = Return true.
Proof.
  intros Href. induction 1 as [|entry rest (m & ->) _ IH]; intros (m' & Hin & Hname).
  - by apply elem_of_nil in Hin.
  - simpl.
    destruct (iface_eq_scalar (index m "name") ref Href) as [[-> _]|[-> Hne]]; [done|].
    simpl. apply IH. exists m'. split; [|done].
    apply elem_of_cons in Hin as [[= ->]|Hin]; done.
Qed.

Lemma frontend_endpoint_found_cons name m rest :
  frontend_endpoint_found name (VMap m :: rest) =
  (iface_eq (VString name) (index m "name") ≫= fun same : bool =>
   if same then Return true else frontend_endpoint_found name rest).
Proof. reflexivity. Qed.

Lemma frontend_endpoint_found_unresolved name fes :
  unresolved (VString name) fes →
  frontend_endpoint_found name fes = Return false.
Proof.
  induction 1 as [|entry rest (m & -> & Hne) _ IH]; [done|].
  rewrite frontend_endpoint_found_cons, iface_eq_sym.
  destruct (iface_eq_scalar (index m "name") (VString name) I) as [[_ ?]|[-> _]]; done.
Qed.

Lemma frontend_endpoint_found_resolved name fes :
  all_maps fes → resolved (VString name) fes →
  frontend_endpoint_found name fes = Return true.
Proof.
  induction 1 as [|entry rest (m & ->) _ IH]; intros (m' & Hin & Hname).
  - by apply elem_of_nil in Hin.
  - rewrite frontend_endpoint_found_cons, iface_eq_sym.
    destruct (iface_eq_scalar (index m "name") (VString name) I)
      as [[-> _]|[-> Hne]]; [done|].
    simpl. apply IH. exists m'. split; [|done].
    apply elem_of_cons in Hin as [[= ->]|Hin]; done.
Qed.

(** ** Frontend endpoints of a routing rule *)

Lemma routing_rule_frontends_unfold fes rule names :
  index rule "frontend_endpoints" = VList names →
  routing_rule_frontends fes rule =
  if Nat.ltb 0 (length names)
  then for_each (routing_rule_frontend (index rule "name") fes) names
  else Fail (RoutingRuleNoFrontendEndpoints (index rule "name")).
Proof. intros H. unfold routing_rule_frontends. by rewrite H. Qed.

Lemma routing_rule_frontends_resolved ruleName fes found :
  all_maps fes → (∀ n, n ∈ found → resolved (VString n) fes) →
  for_each (routing_rule_frontend ruleName fes) (VString <$> found) = Return ().
Proof.
  intros Hmaps Hres. apply for_each_pass, Forall_fmap, Forall_forall.
  intros n Hn. unfold routing_rule_frontend. simpl.
  by rewrite (frontend_endpoint_found_resolved _ _ Hmaps (Hres _ Hn)).
Qed.

(** C2.  For a routing rule that validation reaches and whose
    configuration checks pass: an empty [frontend_endpoints] list fails
    with MissingRequiredCollection naming the rule; a list whose names
    all resolve against the frontend-endpoint collection passes; and a
    list with unresolved names fails with DanglingReference reporting
    the first of them in list order, whatever follows it. *)
Theorem routing_rule_frontend_endpoints_checked
    d rrs fes bps lbs hps pre rule post names :
  collections d rrs fes bps lbs hps → fes ≠ [] →
  rrs = pre ++ VMap rule :: post →
  for_each (routing_rule_check fes bps) pre = Return () →
  routing_rule_configuration bps rule = Return () →
  index rule "frontend_endpoints" = VList names →
  (names = [] →
   let e := RoutingRuleNoFrontendEndpoints (index rule "name") in
   FrontdoorSettings d = Fail e ∧
   kind e = MissingRequiredCollection ∧ mentions e = [index rule "name"]) ∧
  (∀ listed, names = VString <$> listed → listed ≠ [] → all_maps fes →
   (∀ n, n ∈ listed → resolved (VString n) fes) →
   routing_rule_check fes bps (VMap rule) = Return ()) ∧
  (∀ found name rest,
   names = (VString <$> found) ++ VString name :: rest →
   (∀ n, n ∈ found → resolved (VString n) fes) →
   unresolved (VString name) fes →
   let e := RoutingRuleFrontendNotFound (index rule "name") name in
   FrontdoorSettings d = Fail e ∧
   kind e = DanglingReference ∧
   mentions e = [index rule "name"; VString name]).
Proof.
  intros Hd Hfes Hrrs Hpre Hconf Hnames. split; [|split].
  - intros -> e. repeat split.
    eapply FrontdoorSettings_at_routing_rule; [done..|].
    rewrite routing_rule_check_unfold, Hconf. simpl.
    by rewrite (routing_rule_frontends_unfold _ _ _ Hnames).
  - intros listed -> Hne Hmaps Hres.
    rewrite routing_rule_check_unfold, Hconf. simpl.
    rewrite (routing_rule_frontends_unfold _ _ _ Hnames).
    rewrite length_positive by (by destruct listed).
    by apply routing_rule_frontends_resolved.
  - intros found name rest -> Hres Hun e. repeat split.
    eapply FrontdoorSettings_at_routing_rule; [done..|].
    rewrite routing_rule_check_unfold, Hconf. simpl.
    rewrite (routing_rule_frontends_unfold _ _ _ Hnames).
    rewrite length_positive by (by destruct found).
    apply for_each_fail.
    + apply routing_rule_frontends_resolved; [|done].
      by eapply unresolved_all_maps.
    + unfold routing_rule_frontend. simpl.
      by rewrite (frontend_endpoint_found_unresolved _ _ Hun).
Qed.

Lemma routing_rule_frontend_endpoints_checked_witness :
  FrontdoorSettings first_unresolved_frontend =
  Fail (RoutingRuleFrontendNotFound (VString "rr1") "fe-x").
Proof.
  refine (proj1 (proj2 (proj2 (routing_rule_frontend_endpoints_checked
    first_unresolved_frontend _ _ _ _ _ []
    (list_to_map [ ("name", VString "rr1");
                   ("frontend_endpoints",
                    VList [VString "fe1"; VString "fe-x"; VString "fe-y"]);
                   ("redirect_configuration", VList [redirect]);
                   ("forwarding_configuration", VList []) ])
    [] _ (collections_diff_of _ _ _ _ _) _ _ _ _ _))
    ["fe1"] "fe-x" [VString "fe-y"] _ _ _)).
  - discriminate.
  - reflexivity.
  - reflexivity.
  - vm_compute. reflexivity.
  - vm_compute. reflexivity.
  - reflexivity.
  - intros n ->%list_elem_of_singleton. eexists. split.
    + apply list_elem_of_here.
    + vm_compute. reflexivity.
  - repeat constructor. eexists. split; [reflexivity|]. vm_compute. discriminate.
Defined.

(** ** Backend pools *)

Lemma backend_pool_check_unfold lbs hps pool :
  backend_pool_check lbs hps (VMap pool) =
  (settings_reference_check BackendPoolLoadBalancingNotFound lbs
     (index pool "name") (index pool "load_balancing_name") ≫= fun _ =>
   settings_reference_check BackendPoolHealthProbeNotFound hps
     (index pool "name") (index pool "health_probe_name")).
Proof. reflexivity. Qed.

Lemma settings_reference_check_unresolved not_found settings name ref :
  settings ≠ [] → scalar ref → unresolved ref settings →
  settings_reference_check not_found settings name ref = Fail (not_found name ref).
Proof.
  intros Hne Href Hun. unfold settings_reference_check.
  rewrite (length_positive _ Hne).
  by rewrite (settings_name_found_unresolved _ _ Href Hun).
Qed.

Lemma settings_reference_check_resolved not_found settings name ref :
  scalar ref → all_maps settings → resolved ref settings →
  settings_reference_check not_found settings name ref = Return ().
Proof.
  intros Href Hmaps Hres. unfold settings_reference_check.
  destruct (Nat.ltb 0 (length settings)); [|done].
  by rewrite (settings_name_found_resolved _ _ Href Hmaps Hres).
Qed.

(** C1.  For a backend pool that validation reaches (some endpoint is
    configured, the routing rules and the pools declared before it
    pass): when the load-balancing-settings collection is non-empty and
    none of its entries is named by the pool's [load_balancing_name],
    validation fails with DanglingReference interpolating the pool's
    name and the unresolved name; when the collection is empty the
    reference is not looked at and the pool's outcome is that of its
    health-probe reference alone.  The health-probe reference is treated
    the same way against the health-probe-settings collection, after the
    load-balancing reference has passed. *)
Theorem backend_pool_settings_references_checked
    d rrs fes bps lbs hps pre pool post :
  collections d rrs fes bps lbs hps → fes ≠ [] →
  for_each (routing_rule_check fes bps) rrs = Return () →
  bps = pre ++ VMap pool :: post →
  for_each (backend_pool_check lbs hps) pre = Return () →
  let name := index pool "name" in
  let lb := index pool "load_balancing_name" in
  let hp := index pool "health_probe_name" in
  (lbs ≠ [] → scalar lb → unresolved lb lbs →
   let e := BackendPoolLoadBalancingNotFound name lb in
   FrontdoorSettings d = Fail e ∧
   kind e = DanglingReference ∧ mentions e = [name; lb]) ∧
  (lbs = [] →
   settings_reference_check BackendPoolLoadBalancingNotFound lbs name lb = Return () ∧
   backend_pool_check lbs hps (VMap pool) =
     settings_reference_check BackendPoolHealthProbeNotFound hps name hp) ∧
  (settings_reference_check BackendPoolLoadBalancingNotFound lbs name lb = Return () →
   hps ≠ [] → scalar hp → unresolved hp hps →
   let e := BackendPoolHealthProbeNotFound name hp in
   FrontdoorSettings d = Fail e ∧
   kind e = DanglingReference ∧ mentions e = [name; hp]) ∧
  (hps = [] →
   settings_reference_check BackendPoolHealthProbeNotFound hps name hp = Return ()).
Proof.
  intros Hd Hfes Hrrs Hbps Hpre name lb hp. split; [|split; [|split]].
  - intros Hne Hlb Hun e. split; [|done].
    eapply FrontdoorSettings_at_backend_pool; [done..|].
    rewrite backend_pool_check_unfold.
    by rewrite (settings_reference_check_unresolved _ _ _ _ Hne Hlb Hun).
  - intros ->. split; [done|]. by rewrite backend_pool_check_unfold.
  - intros Hpass Hne Hhp Hun e. split; [|done].
    eapply FrontdoorSettings_at_backend_pool; [done..|].
    rewrite backend_pool_check_unfold. fold name lb. rewrite Hpass. simpl.
    by rewrite (settings_reference_check_unresolved _ _ _ _ Hne Hhp Hun).
  - by intros ->.
Qed.

Lemma backend_pool_settings_references_checked_witness :
  FrontdoorSettings dangling_load_balancing =
  Fail (BackendPoolLoadBalancingNotFound (VString "bp2") (VString "lb-missing")).
Proof.
  refine (proj1 (proj1 (backend_pool_settings_references_checked
    dangling_load_balancing _ _ _ _ _ [backend_pool "bp1" "lb1" "hp1"]
    (list_to_map [ ("name", VString "bp2");
                   ("load_balancing_name", VString "lb-missing");
                   ("health_probe_name", VString "hp1") ])
    [] (collections_diff_of _ _ _ _ _) _ _ _ _) _ _ _)).
  - discriminate.
  - vm_compute. reflexivity.
  - reflexivity.
  - vm_compute. reflexivity.
  - discriminate.
  - vm_compute. exact I.
  - repeat constructor. eexists. split; [reflexivity|]. vm_compute. discriminate.
Defined.

(** End-to-end example 1 of the specification. *)
Example example1_accepted : FrontdoorSettings example1 = Return ().
Proof. vm_compute. reflexivity. Qed.

(** With no settings block defined at all, dangling settings names go
    unnoticed. *)
Example no_settings_defined_accepted :
  FrontdoorSettings no_settings_defined = Return ().
Proof. vm_compute. reflexivity. Qed.

(** ** Frontend endpoints *)

Lemma index_empty k : index ∅ k = VNil.
Proof. unfold index. by rewrite lookup_empty. Qed.

Lemma size_positive (m : gmap string value) k :
  index m k ≠ VNil → Nat.ltb 0 (size m) = true.
Proof.
  intros Hk. destruct (size m) eqn:Hsize; [|done].
  apply map_size_empty_inv in Hsize. subst m. by rewrite index_empty in Hk.
Qed.

(** Lines 157-175 for an endpoint whose two TLS fields have their types. *)
Lemma frontend_endpoint_check_unfold fe enabled chc :
  index fe "custom_https_provisioning_enabled" = VBool enabled →
  index fe "custom_https_configuration" = VList chc →
  frontend_endpoint_check (VMap fe) =
  match chc with
  | [] => if enabled then Fail (CustomHttpsUndefined (index fe "name")) else Return ()
  | chc0 :: _ =>
      if enabled then
        customHttpsConfiguration ← assert_map chc0;
        keyVault ← iface_eq (index customHttpsConfiguration "certificate_source")
                     (VString CertificateSourceAzureKeyVault);
        if keyVault : bool
        then
          if negb (AzureKeyVaultCertificateHasValues customHttpsConfiguration true)
          then Fail (CustomHttpsKeyVaultIncomplete (index fe "name")) else Return ()
        else
          if AzureKeyVaultCertificateHasValues customHttpsConfiguration false
          then Fail (CustomHttpsKeyVaultExtraneous (index fe "name")) else Return ()
      else Fail (CustomHttpsDisabled (index fe "name"))
  end.
Proof.
  intros Hen Hchc. unfold frontend_endpoint_check. simpl.
  rewrite (size_positive fe "custom_https_provisioning_enabled") by (by rewrite Hen).
  rewrite Hen, Hchc. simpl.
  by destruct chc as [|chc0 more], enabled.
Qed.

(** C4.  For a frontend endpoint that validation reaches (the routing
    rules, the backend pools and the endpoints declared before it pass):
    a TLS block with provisioning disabled fails with InvalidTlsState
    naming the endpoint, and provisioning enabled without a TLS block
    fails with MissingConfigurationBlock naming the endpoint. *)
Theorem custom_https_presence_checked
    d rrs fes bps lbs hps pre fe post enabled chc :
  collections d rrs fes bps lbs hps →
  for_each (routing_rule_check fes bps) rrs = Return () →
  for_each (backend_pool_check lbs hps) bps = Return () →
  fes = pre ++ VMap fe :: post →
  for_each frontend_endpoint_check pre = Return () →
  index fe "custom_https_provisioning_enabled" = VBool enabled →
  index fe "custom_https_configuration" = VList chc →
  (chc ≠ [] → enabled = false →
   let e := CustomHttpsDisabled (index fe "name") in
   FrontdoorSettings d = Fail e ∧
   kind e = InvalidTlsState ∧ mentions e = [index fe "name"]) ∧
  (chc = [] → enabled = true →
   let e := CustomHttpsUndefined (index fe "name") in
   FrontdoorSettings d = Fail e ∧
   kind e = MissingConfigurationBlock ∧ mentions e = [index fe "name"]).
Proof.
  intros Hd Hrrs Hbps Hfes Hpre Hen Hchc. split.
  - intros Hne -> e. split; [|done].
    eapply FrontdoorSettings_at_frontend_endpoint; [done..|].
    rewrite (frontend_endpoint_check_unfold _ _ _ Hen Hchc). by destruct chc.
  - intros -> -> e. split; [|done].
    eapply FrontdoorSettings_at_frontend_endpoint; [done..|].
    by rewrite (frontend_endpoint_check_unfold _ _ _ Hen Hchc).
Qed.

Lemma custom_https_presence_checked_witness :
  FrontdoorSettings custom_https_while_disabled =
  Fail (CustomHttpsDisabled (VString "fe2")).
Proof.
  refine (proj1 (proj1 (custom_https_presence_checked
    custom_https_while_disabled _ _ _ _ _ [frontend_endpoint "fe1" false []]
    (list_to_map [ ("name", VString "fe2");
                   ("custom_https_provisioning_enabled", VBool false);
                   ("custom_https_configuration",
                    VList [custom_https "FrontDoor" "" "" ""]) ])
    [] false _ (collections_diff_of _ _ _ _ _) _ _ _ _ _ _) _ _)).
  - vm_compute. reflexivity.
  - vm_compute. reflexivity.
  - reflexivity.
  - vm_compute. reflexivity.
  - vm_compute. reflexivity.
  - vm_compute. reflexivity.
  - discriminate.
  - reflexivity.
Defined.

Lemma key_vault_fields_incomplete config k :
  k ∈ key_vault_fields → populated (index config k) = false →
  AzureKeyVaultCertificateHasValues config true = false.
Proof.
  intros Hk Hempty. unfold AzureKeyVaultCertificateHasValues.
  destruct (forallb _ _) eqn:Hall; [|done].
  rewrite forallb_forall in Hall.
  rewrite (Hall k) in Hempty; [done | by apply list_elem_of_In].
Qed.

Lemma key_vault_fields_extraneous config k :
  k ∈ key_vault_fields → populated (index config k) = true →
  AzureKeyVaultCertificateHasValues config false = true.
Proof.
  intros Hk Hset. unfold AzureKeyVaultCertificateHasValues.
  apply existsb_exists. exists k. split; [by apply list_elem_of_In | done].
Qed.

(** C3.  For a frontend endpoint that validation reaches, with
    provisioning enabled and a TLS block present: when the block's
    [certificate_source] is the key-vault source and one of the three
    key-vault fields is empty (or missing), validation fails with
    IncompleteTlsConfig naming the endpoint; when the source is anything
    else and one of the three fields is non-empty, it fails with
    ExtraneousTlsConfig naming the endpoint. *)
Theorem key_vault_fields_checked
    d rrs fes bps lbs hps pre fe post config more :
  collections d rrs fes bps lbs hps →
  for_each (routing_rule_check fes bps) rrs = Return () →
  for_each (backend_pool_check lbs hps) bps = Return () →
  fes = pre ++ VMap fe :: post →
  for_each frontend_endpoint_check pre = Return () →
  index fe "custom_https_provisioning_enabled" = VBool true →
  index fe "custom_https_configuration" = VList (VMap config :: more) →
  (index config "certificate_source" = VString CertificateSourceAzureKeyVault →
   (∃ k, k ∈ key_vault_fields ∧ populated (index config k) = false) →
   let e := CustomHttpsKeyVaultIncomplete (index fe "name") in
   FrontdoorSettings d = Fail e ∧
   kind e = IncompleteTlsConfig ∧ mentions e = [index fe "name"]) ∧
  (index config "certificate_source" ≠ VString CertificateSourceAzureKeyVault →
   (∃ k, k ∈ key_vault_fields ∧ populated (index config k) = true) →
   let e := CustomHttpsKeyVaultExtraneous (index fe "name") in
   FrontdoorSettings d = Fail e ∧
   kind e = ExtraneousTlsConfig ∧ mentions e = [index fe "name"]).
Proof.
  intros Hd Hrrs Hbps Hfes Hpre Hen Hchc. split.
  - intros Hsrc (k & Hk & Hempty) e. split; [|done].
    eapply FrontdoorSettings_at_frontend_endpoint; [done..|].
    rewrite (frontend_endpoint_check_unfold _ _ _ Hen Hchc). simpl.
    rewrite Hsrc. simpl.
    by rewrite (key_vault_fields_incomplete _ _ Hk Hempty).
  - intros Hsrc (k & Hk & Hset) e. split; [|done].
    eapply FrontdoorSettings_at_frontend_endpoint; [done..|].
    rewrite (frontend_endpoint_check_unfold _ _ _ Hen Hchc). simpl.
    destruct (iface_eq_scalar (index config "certificate_source")
                (VString CertificateSourceAzureKeyVault) I) as [[_ ?]|[-> _]]; [done|].
    simpl. by rewrite (key_vault_fields_extraneous _ _ Hk Hset).
Qed.

(** End-to-end example 3 of the specification. *)
Lemma key_vault_fields_checked_witness :
  FrontdoorSettings example3 = Fail (CustomHttpsKeyVaultIncomplete (VString "fe1")).
Proof.
  refine (proj1 (proj1 (key_vault_fields_checked example3 _ _ _ _ _ []
    (list_to_map [ ("name", VString "fe1");
                   ("custom_https_provisioning_enabled", VBool true);
                   ("custom_https_configuration",
                    VList [custom_https "AzureKeyVault" "" "1" "vault"]) ])
    []
    (list_to_map [ ("certificate_source", VString "AzureKeyVault");
                   ("azure_key_vault_certificate_secret_name", VString "");
                   ("azure_key_vault_certificate_secret_version", VString "1");
                   ("azure_key_vault_certificate_vault_id", VString "vault") ])
    [] (collections_diff_of _ _ _ _ _) _ _ _ _ _ _) _ _)).
  - vm_compute. reflexivity.
  - vm_compute. reflexivity.
  - reflexivity.
  - reflexivity.
  - vm_compute. reflexivity.
  - vm_compute. reflexivity.
  - vm_compute. reflexivity.
  - exists "azure_key_vault_certificate_secret_name". split.
    + apply list_elem_of_here.
    + vm_compute. reflexivity.
Defined.

(** A certificate managed by the service must not carry key-vault fields. *)
Example extraneous_key_vault_field :
  FrontdoorSettings
    (diff_of [] [ frontend_endpoint "fe1" true
                    [ custom_https "FrontDoor" "" "" "vault" ] ] [] [] []) =
  Fail (CustomHttpsKeyVaultExtraneous (VString "fe1")).
Proof. vm_compute. reflexivity. Qed.

(** ** Totality *)

Lemma returns_Return : returns (Return ()).
Proof. by left. Qed.

Lemma returns_Fail e : returns (Fail e).
Proof. right. by exists e. Qed.

Lemma returns_bind (r : result unit) (k : unit → result unit) :
  returns r → (r = Return () → returns (k ())) → returns (r ≫= k).
Proof.
  intros [->|[e ->]] Hk; simpl; [by apply Hk | apply returns_Fail].
Qed.

Lemma for_each_returns body l :
  Forall (fun x => returns (body x)) l → returns (for_each body l).
Proof.
  induction 1 as [|x l [Hx|[e Hx]] _ IH]; simpl.
  - apply returns_Return.
  - by rewrite Hx.
  - rewrite Hx. apply returns_Fail.
Qed.

Lemma is_map_all_maps l : forallb is_map l = true → all_maps l.
Proof.
  intros Hl. apply Forall_forall. intros x Hx%list_elem_of_In.
  rewrite forallb_forall in Hl. specialize (Hl _ Hx).
  destruct x; try done. by eexists.
Qed.

Lemma wf_frontend_endpoints_all_maps fes :
  forallb wf_frontend_endpoint fes = true → all_maps fes.
Proof.
  intros Hl. apply Forall_forall. intros x Hx%list_elem_of_In.
  rewrite forallb_forall in Hl. specialize (Hl _ Hx).
  destruct x; try done. by eexists.
Qed.

Lemma frontend_endpoint_found_returns name fes :
  all_maps fes → ∃ found, frontend_endpoint_found name fes = Return found.
Proof.
  induction 1 as [|entry rest (m & ->) _ [found IH]]; [by exists false|].
  rewrite frontend_endpoint_found_cons, iface_eq_sym.
  destruct (iface_eq_scalar (index m "name") (VString name) I) as [[-> _]|[-> _]];
    simpl; eauto.
Qed.

Lemma settings_name_found_returns ref settings :
  scalar ref → all_maps settings →
  ∃ found, settings_name_found ref settings = Return found.
Proof.
  intros Href. induction 1 as [|entry rest (m & ->) _ [found IH]]; [by exists false|].
  simpl.
  destruct (iface_eq_scalar (index m "name") ref Href) as [[-> _]|[-> _]];
    simpl; eauto.
Qed.

Lemma is_scalar_scalar v : is_scalar v = true → scalar v.
Proof. by destruct v. Qed.

Lemma routing_rule_check_returns fes bps rr :
  all_maps fes → wf_routing_rule rr = true →
  returns (routing_rule_check fes bps rr).
Proof.
  intros Hfes Hrr. destruct rr as [| | | | |m]; try done.
  unfold wf_routing_rule in Hrr.
  destruct (index m "redirect_configuration") as [| | | |redirectConfig|] eqn:Hr;
    try done.
  destruct (index m "forwarding_configuration") as [| | | |forwardConfig|] eqn:Hf;
    try done.
  destruct (index m "frontend_endpoints") as [| | | |frontends|] eqn:Hn; try done.
  apply andb_true_iff in Hrr as [Hfwd Hnames].
  rewrite routing_rule_check_unfold. apply returns_bind.
  - unfold routing_rule_configuration. rewrite Hr, Hf. simpl.
    destruct (_ && _); [apply returns_Fail|].
    destruct (_ && _); [apply returns_Fail|].
    destruct forwardConfig as [|fc0 more]; [apply returns_Return|]. simpl.
    destruct fc0 as [| | | | |fc]; try done. revert Hfwd. simpl.
    destruct (index fc "backend_pool_name") as [|name| | | |]; try done.
    intros _. simpl.
    destruct (DoesBackendPoolExists name bps);
      [apply returns_Fail | apply returns_Return].
  - intros _. rewrite (routing_rule_frontends_unfold _ _ _ Hn).
    destruct (Nat.ltb 0 (length frontends)); [|apply returns_Fail].
    apply for_each_returns, Forall_forall. intros x Hx%list_elem_of_In.
    rewrite forallb_forall in Hnames. specialize (Hnames _ Hx).
    destruct x as [|s| | | |]; try done. unfold routing_rule_frontend. simpl.
    destruct (frontend_endpoint_found_returns s fes Hfes) as [[] ->]; simpl;
      [apply returns_Return | apply returns_Fail].
Qed.

Lemma settings_reference_check_returns not_found settings name ref :
  scalar ref → all_maps settings →
  returns (settings_reference_check not_found settings name ref).
Proof.
  intros Href Hmaps. unfold settings_reference_check.
  destruct (Nat.ltb 0 (length settings)); [|apply returns_Return].
  destruct (settings_name_found_returns ref settings Href Hmaps) as [[] ->]; simpl;
    [apply returns_Return | apply returns_Fail].
Qed.

Lemma backend_pool_check_returns lbs hps bp :
  all_maps lbs → all_maps hps → wf_backend_pool bp = true →
  returns (backend_pool_check lbs hps bp).
Proof.
  intros Hlbs Hhps Hbp. destruct bp as [| | | | |m]; try done.
  apply andb_true_iff in Hbp as [Hlb%is_scalar_scalar Hhp%is_scalar_scalar].
  rewrite backend_pool_check_unfold. apply returns_bind.
  - by apply settings_reference_check_returns.
  - intros _. by apply settings_reference_check_returns.
Qed.

Lemma frontend_endpoint_check_returns fe :
  wf_frontend_endpoint fe = true → returns (frontend_endpoint_check fe).
Proof.
  intros Hfe. destruct fe as [| | | | |m]; try done.
  unfold wf_frontend_endpoint in Hfe.
  destruct (index m "custom_https_provisioning_enabled") as [| |enabled| | |] eqn:Hen;
    try done.
  destruct (index m "custom_https_configuration") as [| | | |chc|] eqn:Hchc; try done.
  rewrite (frontend_endpoint_check_unfold _ _ _ Hen Hchc).
  destruct chc as [|chc0 more], enabled;
    try apply returns_Return; try apply returns_Fail.
  destruct chc0 as [| | | | |config]; try done. simpl.
  destruct (iface_eq_scalar (index config "certificate_source")
              (VString CertificateSourceAzureKeyVault) I) as [[-> _]|[-> _]]; simpl.
  - destruct (negb _); [apply returns_Fail | apply returns_Return].
  - destruct (AzureKeyVaultCertificateHasValues _ _);
      [apply returns_Fail | apply returns_Return].
Qed.

Lemma forallb_Forall_returns (wf : value → bool) body l :
  (∀ x, wf x = true → returns (body x)) →
  forallb wf l = true → Forall (fun x => returns (body x)) l.
Proof.
  intros Hbody Hl. apply Forall_forall. intros x Hx%list_elem_of_In.
  rewrite forallb_forall in Hl. by apply Hbody, Hl.
Qed.

(** C9, as the code has it.  On every configuration tree of the shape
    the schema layer delivers, [FrontdoorSettings] returns: either nil or
    exactly one error, and it does not panic. *)
Theorem FrontdoorSettings_total d :
  wf_diff d = true →
  returns (FrontdoorSettings d) ∧ FrontdoorSettings d ≠ Panic.
Proof.
  intros Hwf.
  assert (returns (FrontdoorSettings d)) as Hret;
    [|split; [done | by destruct Hret as [->|[e ->]]]].
  unfold wf_diff in Hwf.
  destruct (Get d "routing_rule") as [| | | |rrs|] eqn:Hrr; try done.
  destruct (Get d "frontend_endpoint") as [| | | |fes|] eqn:Hfe; try done.
  destruct (Get d "backend_pool") as [| | | |bps|] eqn:Hbp; try done.
  destruct (Get d "backend_pool_load_balancing") as [| | | |lbs|] eqn:Hlb; try done.
  destruct (Get d "backend_pool_health_probe") as [| | | |hps|] eqn:Hhp; try done.
  repeat (apply andb_true_iff in Hwf as [Hwf ?]).
  rewrite (FrontdoorSettings_collections d rrs fes bps lbs hps) by done.
  unfold FrontdoorSettings_checks.
  destruct (Nat.eqb (length fes) 0); [apply returns_Fail|].
  apply returns_bind; [|intros _; apply returns_bind; [|intros _]].
  - apply for_each_returns.
    eapply forallb_Forall_returns; [|done]. intros rr.
    by apply routing_rule_check_returns, wf_frontend_endpoints_all_maps.
  - apply for_each_returns.
    eapply forallb_Forall_returns; [|done]. intros bp.
    by apply backend_pool_check_returns; apply is_map_all_maps.
  - apply for_each_returns.
    eapply forallb_Forall_returns; [|done]. apply frontend_endpoint_check_returns.
Qed.

(** End-to-end example 1 of the specification. *)
Lemma FrontdoorSettings_total_witness :
  returns (FrontdoorSettings example1) ∧ FrontdoorSettings example1 ≠ Panic.
Proof.
  apply (FrontdoorSettings_total example1). vm_compute. reflexivity.
Defined.

(** C9, as the specification words it, fails: an endpoint without the optional
    [custom_https_configuration] key is not treated as an endpoint
    without TLS block; the type assertion of line 157 panics. *)
Lemma missing_optional_block_panics :
  FrontdoorSettings missing_optional_block = Panic ∧
  ¬ returns (FrontdoorSettings missing_optional_block).
Proof.
  assert (FrontdoorSettings missing_optional_block = Panic) as H
    by (vm_compute; reflexivity).
  split; [done|]. rewrite H. by intros [?|[e ?]].
Qed.

(** An empty block list, on the other hand, is an absent block. *)
Example empty_optional_block_accepted :
  FrontdoorSettings
    (diff_of [ routing_rule "rr1" ["fe1"] [redirect] [] ]
             [ frontend_endpoint "fe1" false [] ] [] [] []) = Return ().
Proof. vm_compute. reflexivity. Qed.

(** ** Resolution is existential *)

Lemma iface_eq_true a b : iface_eq a b = Return true → a = b ∧ scalar b.
Proof.
  destruct a, b; simpl; try done; intros [= H].
  - by apply String.eqb_eq in H as ->.
  - by apply Bool.eqb_prop in H as ->.
  - by apply Z.eqb_eq in H as ->.
Qed.

Lemma frontend_endpoint_found_true name fes :
  frontend_endpoint_found name fes = Return true → resolved (VString name) fes.
Proof.
  induction fes as [|entry rest IH]; [done|].
  destruct entry as [| | | | |m]; try done.
  rewrite frontend_endpoint_found_cons.
  destruct (iface_eq (VString name) (index m "name")) as [[]| |] eqn:Heq; simpl;
    try done.
  - intros _. apply iface_eq_true in Heq as [Heq _].
    exists m. split; [apply list_elem_of_here | done].
  - intros (m' & Hin & Hname)%IH. exists m'.
    split; [by apply list_elem_of_further | done].
Qed.

Lemma settings_name_found_true ref settings :
  settings_name_found ref settings = Return true →
  resolved ref settings ∧ scalar ref.
Proof.
  induction settings as [|entry rest IH]; [done|].
  destruct entry as [| | | | |m]; try done. simpl.
  destruct (iface_eq (index m "name") ref) as [[]| |] eqn:Heq; simpl; try done.
  - intros _. apply iface_eq_true in Heq as [Heq Href].
    split; [|done]. exists m. split; [apply list_elem_of_here | done].
  - intros [(m' & Hin & Hname) Href]%IH. split; [|done]. exists m'.
    split; [by apply list_elem_of_further | done].
Qed.

Lemma resolved_incl ref l l' :
  (∀ x, x ∈ l → x ∈ l') → resolved ref l → resolved ref l'.
Proof. intros Hincl (m & Hin & Hname). exists m. split; [by apply Hincl | done]. Qed.

Lemma all_maps_incl l l' : (∀ x, x ∈ l' → x ∈ l) → all_maps l → all_maps l'.
Proof.
  unfold all_maps. rewrite !Forall_forall. intros Hincl Hl x Hx. by apply Hl, Hincl.
Qed.

Lemma DoesBackendPoolExists_incl name bps bps' :
  (∀ x, x ∈ bps → x ∈ bps') →
  DoesBackendPoolExists name bps = None → DoesBackendPoolExists name bps' = None.
Proof.
  intros Hincl Hfound. apply DoesBackendPoolExists_found.
  eapply resolved_incl; [done|]. by apply DoesBackendPoolExists_found.
Qed.

Lemma routing_rule_configuration_incl bps bps' rule :
  (∀ x, x ∈ bps → x ∈ bps') →
  routing_rule_configuration bps rule = Return () →
  routing_rule_configuration bps' rule = Return ().
Proof.
  intros Hincl. unfold routing_rule_configuration.
  destruct (assert_list (index rule "redirect_configuration")) as [redirectConfig| |];
    simpl; try done.
  destruct (assert_list (index rule "forwarding_configuration")) as [forwardConfig| |];
    simpl; try done.
  destruct (_ && _); [done|]. destruct (_ && _); [done|].
  destruct (Nat.ltb 0 (length forwardConfig)); [|done].
  destruct (at_index forwardConfig 0) as [fc0| |]; simpl; try done.
  destruct (assert_map fc0) as [fc| |]; simpl; try done.
  destruct (assert_string (index fc "backend_pool_name")) as [name| |]; simpl;
    try done.
  destruct (DoesBackendPoolExists name bps) eqn:Hfound; [done|].
  by rewrite (DoesBackendPoolExists_incl _ _ _ Hincl Hfound).
Qed.

Lemma routing_rule_frontend_incl ruleName fes fes' x :
  all_maps fes' → (∀ x, x ∈ fes → x ∈ fes') →
  routing_rule_frontend ruleName fes x = Return () →
  routing_rule_frontend ruleName fes' x = Return ().
Proof.
  intros Hmaps Hincl. unfold routing_rule_frontend.
  destruct (assert_string x) as [name| |]; simpl; try done.
  destruct (frontend_endpoint_found name fes) as [[]| |] eqn:Hfound; simpl; try done.
  intros _. apply frontend_endpoint_found_true in Hfound.
  by rewrite (frontend_endpoint_found_resolved name fes' Hmaps
                (resolved_incl _ _ _ Hincl Hfound)).
Qed.

Lemma routing_rule_check_incl fes fes' bps bps' rr :
  all_maps fes' → (∀ x, x ∈ fes → x ∈ fes') → (∀ x, x ∈ bps → x ∈ bps') →
  routing_rule_check fes bps rr = Return () →
  routing_rule_check fes' bps' rr = Return ().
Proof.
  intros Hmaps Hfes Hbps. destruct rr as [| | | | |rule]; try done.
  rewrite !routing_rule_check_unfold.
  destruct (routing_rule_configuration bps rule) as [[]| |] eqn:Hconf; try done.
  rewrite (routing_rule_configuration_incl _ _ _ Hbps Hconf). simpl.
  unfold routing_rule_frontends.
  destruct (assert_list (index rule "frontend_endpoints")) as [frontends| |];
    simpl; try done.
  destruct (Nat.ltb 0 (length frontends)); [|done].
  rewrite !for_each_pass. intros Hpass.
  eapply Forall_impl; [exact Hpass|]. intros x. by apply routing_rule_frontend_incl.
Qed.

Lemma settings_reference_check_incl not_found settings settings' name ref :
  all_maps settings' → same_entries settings settings' →
  settings_reference_check not_found settings name ref = Return () →
  settings_reference_check not_found settings' name ref = Return ().
Proof.
  intros Hmaps Hsame. unfold settings_reference_check.
  destruct settings' as [|s' rest']; [done|].
  destruct settings as [|s rest].
  { exfalso. eapply elem_of_nil, Hsame, list_elem_of_here. }
  change (Nat.ltb 0 (length (s :: rest))) with true.
  change (Nat.ltb 0 (length (s' :: rest'))) with true. cbv iota.
  destruct (settings_name_found ref (s :: rest)) as [[]| |] eqn:Hfound;
    [intros _ | by simpl..].
  apply settings_name_found_true in Hfound as [Hres Href].
  rewrite (settings_name_found_resolved ref (s' :: rest') Href Hmaps); [done|].
  eapply resolved_incl; [|done]. intros x. apply Hsame.
Qed.

Lemma backend_pool_check_incl lbs lbs' hps hps' bp :
  all_maps lbs' → all_maps hps' → same_entries lbs lbs' → same_entries hps hps' →
  backend_pool_check lbs hps bp = Return () →
  backend_pool_check lbs' hps' bp = Return ().
Proof.
  intros Hlbs Hhps Hl Hh. destruct bp as [| | | | |pool]; try done.
  rewrite !backend_pool_check_unfold.
  destruct (settings_reference_check _ lbs _ _) as [[]| |] eqn:Hlb; try done.
  rewrite (settings_reference_check_incl _ _ _ _ _ Hlbs Hl Hlb). simpl.
  by apply settings_reference_check_incl.
Qed.

Lemma frontend_endpoint_check_pass_map fe :
  frontend_endpoint_check fe = Return () → ∃ m, fe = VMap m.
Proof. destruct fe; try done. by eexists. Qed.

(** Acceptance, loop by loop. *)
Lemma FrontdoorSettings_checks_pass rrs fes bps lbs hps :
  FrontdoorSettings_checks rrs fes bps lbs hps = Return () ↔
  fes ≠ [] ∧
  Forall (fun rr => routing_rule_check fes bps rr = Return ()) rrs ∧
  Forall (fun bp => backend_pool_check lbs hps bp = Return ()) bps ∧
  Forall (fun fe => frontend_endpoint_check fe = Return ()) fes.
Proof.
  unfold FrontdoorSettings_checks. rewrite <- !for_each_pass.
  destruct fes as [|fe fes']; [split; [done | by intros [? _]]|].
  change (Nat.eqb (length (fe :: fes')) 0) with false. cbv iota.
  destruct (for_each (routing_rule_check _ _) rrs) as [[]| |]; simpl;
    [|split; [done | by intros (_ & ? & _)]..].
  destruct (for_each (backend_pool_check _ _) bps) as [[]| |]; simpl;
    [|split; [done | by intros (_ & _ & ? & _)]..].
  split; [by intros -> | by intros (_ & _ & _ & ->)].
Qed.

Lemma Forall_same_entries (P : value → Prop) l l' :
  same_entries l l' → Forall P l → Forall P l'.
Proof. rewrite !Forall_forall. intros Hsame Hl x Hx. by apply Hl, Hsame. Qed.

(** Acceptance depends on the collections only through the entries they
    hold: repeating or reordering entries never turns an accepted
    configuration into a rejected one. *)
Lemma FrontdoorSettings_checks_same_entries
    rrs fes bps lbs hps rrs' fes' bps' lbs' hps' :
  same_entries rrs rrs' → same_entries fes fes' → same_entries bps bps' →
  same_entries lbs lbs' → same_entries hps hps' →
  all_maps lbs → all_maps hps →
  FrontdoorSettings_checks rrs fes bps lbs hps = Return () →
  FrontdoorSettings_checks rrs' fes' bps' lbs' hps' = Return ().
Proof.
  intros Hrrs Hfes Hbps Hlbs Hhps Hlmaps Hhmaps.
  rewrite !FrontdoorSettings_checks_pass. intros (Hne & Hrr & Hbp & Hfe).
  assert (Forall (fun fe => frontend_endpoint_check fe = Return ()) fes') as Hfe'
    by by eapply Forall_same_entries.
  assert (all_maps fes') as Hfmaps.
  { eapply Forall_impl; [exact Hfe'|]. apply frontend_endpoint_check_pass_map. }
  repeat split; [| | |done].
  - destruct fes as [|fe ?]; [done|]. intros ->.
    eapply elem_of_nil, Hfes, list_elem_of_here.
  - eapply Forall_same_entries; [done|].
    eapply Forall_impl; [exact Hrr|]. intros rr.
    apply routing_rule_check_incl;
      [done | intros x; apply Hfes | intros x; apply Hbps].
  - eapply Forall_same_entries; [done|].
    eapply Forall_impl; [exact Hbp|]. intros bp.
    apply backend_pool_check_incl; try done.
    + apply (all_maps_incl lbs); [intros x; apply Hlbs | done].
    + apply (all_maps_incl hps); [intros x; apply Hhps | done].
Qed.

(** C10.  No lookup asks for uniqueness.  Each of the four reference
    lookups succeeds as soon as some entry of the target collection
    carries the name, however many do; and a configuration that is
    accepted stays accepted when entries of any of its collections are
    repeated (or reordered), so duplicate names alone never cause a
    violation. *)
Theorem name_resolution_needs_no_uniqueness :
  (∀ name fes, all_maps fes → resolved (VString name) fes →
     frontend_endpoint_found name fes = Return true) ∧
  (∀ name bps, resolved (VString name) bps →
     DoesBackendPoolExists name bps = None) ∧
  (∀ not_found settings pool ref,
     scalar ref → all_maps settings → resolved ref settings →
     settings_name_found ref settings = Return true ∧
     settings_reference_check not_found settings pool ref = Return ()) ∧
  (∀ d d' rrs fes bps lbs hps rrs' fes' bps' lbs' hps',
     collections d rrs fes bps lbs hps →
     collections d' rrs' fes' bps' lbs' hps' →
     same_entries rrs rrs' → same_entries fes fes' → same_entries bps bps' →
     same_entries lbs lbs' → same_entries hps hps' →
     all_maps lbs → all_maps hps →
     FrontdoorSettings d = Return () → FrontdoorSettings d' = Return ()).
Proof.
  split; [|split; [|split]].
  - apply frontend_endpoint_found_resolved.
  - intros name bps. apply DoesBackendPoolExists_found.
  - intros not_found settings pool ref Href Hmaps Hres.
    split; [by apply settings_name_found_resolved
           | by apply settings_reference_check_resolved].
  - intros d d' rrs fes bps lbs hps rrs' fes' bps' lbs' hps' Hd Hd'.
    rewrite (FrontdoorSettings_collections _ _ _ _ _ _ Hd).
    rewrite (FrontdoorSettings_collections _ _ _ _ _ _ Hd').
    apply FrontdoorSettings_checks_same_entries.
Qed.

Lemma name_resolution_needs_no_uniqueness_witness :
  FrontdoorSettings duplicated_entries = Return ().
Proof.
  refine (proj2 (proj2 (proj2 name_resolution_needs_no_uniqueness))
    example1 duplicated_entries _ _ _ _ _ _ _ _ _ _
    (collections_diff_of _ _ _ _ _) (collections_diff_of _ _ _ _ _)
    _ _ _ _ _ _ _ _).
  - intros x. rewrite !elem_of_cons, !elem_of_nil. tauto.
  - intros x. rewrite !elem_of_cons, !elem_of_nil. tauto.
  - intros x. rewrite !elem_of_cons, !elem_of_nil. tauto.
  - intros x. rewrite !elem_of_cons, !elem_of_nil. tauto.
  - intros x. rewrite !elem_of_cons, !elem_of_nil. tauto.
  - repeat constructor. by eexists.
  - repeat constructor. by eexists.
  - vm_compute. reflexivity.
Defined.

(** A reference to a name that two different entries carry resolves. *)
Example duplicated_name_resolves :
  settings_name_found (VString "lb1")
    [ block [("name", VString "lb1"); ("sample_size", VInt 4)];
      block [("name", VString "lb1"); ("sample_size", VInt 8)] ] = Return true.
Proof. vm_compute. reflexivity. Qed.

(** ** What acceptance guarantees *)

Lemma routing_rule_configuration_pass bps rule :
  routing_rule_configuration bps rule = Return () →
  has_configuration_type rule ∧ forwarding_resolved bps rule.
Proof.
  unfold routing_rule_configuration, has_configuration_type, forwarding_resolved.
  destruct (index rule "redirect_configuration") as [| | | |redirectConfig|];
    try done.
  destruct (index rule "forwarding_configuration") as [| | | |forwardConfig|];
    try done.
  simpl.
  destruct (Nat.eqb (length redirectConfig) 0 && Nat.eqb (length forwardConfig) 0)
    eqn:Hnone; [done|].
  destruct (Nat.eqb (length redirectConfig) 1 && Nat.eqb (length forwardConfig) 1)
    eqn:Hboth; [done|].
  intros Hcheck. split.
  - exists redirectConfig, forwardConfig. repeat split.
    + intros [-> ->]. done.
    + intros [H1 H2]. by rewrite H1, H2 in Hboth.
  - intros fc0 more [= ->]. simpl in Hcheck.
    destruct fc0 as [| | | | |fc]; try done. simpl in Hcheck.
    destruct (index fc "backend_pool_name") as [|name| | | |] eqn:Hname; try done.
    simpl in Hcheck.
    destruct (DoesBackendPoolExists name bps) eqn:Hfound; [done|].
    exists fc, name. split; [done|]. split; [done|].
    by apply DoesBackendPoolExists_found.
Qed.

Lemma routing_rule_frontend_pass ruleName fes x :
  routing_rule_frontend ruleName fes x = Return () →
  ∃ n, x = VString n ∧ resolved (VString n) fes.
Proof.
  unfold routing_rule_frontend. destruct x as [|n| | | |]; try done. simpl.
  destruct (frontend_endpoint_found n fes) as [[]| |] eqn:Hfound; try done.
  intros _. exists n. split; [done|]. by apply frontend_endpoint_found_true.
Qed.

Lemma routing_rule_frontend_loop_pass ruleName fes l :
  for_each (routing_rule_frontend ruleName fes) l = Return () →
  ∃ names, l = VString <$> names ∧ ∀ n, n ∈ names → resolved (VString n) fes.
Proof.
  rewrite for_each_pass. induction 1 as [|x l Hx _ (names & -> & Hres)].
  - exists []. split; [done|]. intros n Hn. by apply elem_of_nil in Hn.
  - apply routing_rule_frontend_pass in Hx as (n & -> & Hn).
    exists (n :: names). split; [done|].
    intros n' [->|Hin]%elem_of_cons; [done | by apply Hres].
Qed.

Lemma routing_rule_frontends_pass fes rule :
  routing_rule_frontends fes rule = Return () → frontends_resolved fes rule.
Proof.
  unfold routing_rule_frontends, frontends_resolved.
  destruct (index rule "frontend_endpoints") as [| | | |frontends|]; try done.
  simpl. destruct frontends as [|x l]; [done|].
  change (Nat.ltb 0 (length (x :: l))) with true. cbv iota.
  intros (names & Heq & Hres)%routing_rule_frontend_loop_pass.
  exists names. split; [by destruct names|]. by rewrite Heq.
Qed.

Lemma routing_rule_check_pass fes bps rr :
  routing_rule_check fes bps rr = Return () →
  ∃ rule, rr = VMap rule ∧ has_configuration_type rule ∧
    forwarding_resolved bps rule ∧ frontends_resolved fes rule.
Proof.
  destruct rr as [| | | | |rule]; try done. rewrite routing_rule_check_unfold.
  destruct (routing_rule_configuration bps rule) as [[]| |] eqn:Hconf; try done.
  simpl. intros Hfront. exists rule.
  apply routing_rule_configuration_pass in Hconf as [? ?].
  by apply routing_rule_frontends_pass in Hfront.
Qed.

Lemma settings_reference_check_pass not_found settings name ref :
  settings_reference_check not_found settings name ref = Return () →
  settings_resolved settings ref.
Proof.
  unfold settings_reference_check, settings_resolved. intros Hcheck Hne.
  rewrite (length_positive _ Hne) in Hcheck.
  destruct (settings_name_found ref settings) as [[]| |] eqn:Hfound; try done.
  apply settings_name_found_true in Hfound as [? ?]. done.
Qed.

Lemma backend_pool_check_pass lbs hps bp :
  backend_pool_check lbs hps bp = Return () →
  ∃ pool, bp = VMap pool ∧
    settings_resolved lbs (index pool "load_balancing_name") ∧
    settings_resolved hps (index pool "health_probe_name").
Proof.
  destruct bp as [| | | | |pool]; try done. rewrite backend_pool_check_unfold.
  destruct (settings_reference_check _ lbs _ _) as [[]| |] eqn:Hlb; try done.
  simpl. intros Hhp. exists pool.
  by split; [|split]; [|eapply settings_reference_check_pass..].
Qed.

Lemma key_vault_all_populated config :
  AzureKeyVaultCertificateHasValues config true = true ↔
  ∀ k, k ∈ key_vault_fields → populated (index config k) = true.
Proof.
  unfold AzureKeyVaultCertificateHasValues. rewrite forallb_forall.
  split; intros H k Hk; apply H; by apply list_elem_of_In.
Qed.

Lemma key_vault_none_populated config :
  AzureKeyVaultCertificateHasValues config false = false ↔
  ∀ k, k ∈ key_vault_fields → populated (index config k) = false.
Proof.
  unfold AzureKeyVaultCertificateHasValues. split.
  - intros Hnone k Hk. destruct (populated (index config k)) eqn:Hp; [|done].
    rewrite <- Hnone. symmetry. apply existsb_exists.
    exists k. split; [by apply list_elem_of_In | done].
  - intros Hnone. destruct (existsb _ _) eqn:Hex; [|done].
    apply existsb_exists in Hex as (k & Hk%list_elem_of_In & Hp).
    by rewrite (Hnone k Hk) in Hp.
Qed.

Lemma frontend_endpoint_check_pass fe :
  frontend_endpoint_check fe = Return () →
  ∃ m, fe = VMap m ∧
    (m ≠ ∅ → custom_https_matches_flag m ∧ custom_https_consistent m).
Proof.
  destruct fe as [| | | | |m]; try done. intros Hcheck. exists m.
  split; [done|]. intros Hne. revert Hcheck.
  unfold frontend_endpoint_check, custom_https_matches_flag, custom_https_consistent.
  simpl. destruct (size m) eqn:Hsize.
  { by apply map_size_empty_inv in Hsize. }
  change (Nat.ltb 0 (S n)) with true. cbv iota.
  destruct (index m "custom_https_provisioning_enabled") as [| |enabled| | |];
    try done.
  destruct (index m "custom_https_configuration") as [| | | |chc|]; try done.
  simpl. destruct chc as [|chc0 more]; simpl.
  - destruct enabled; [done|]. intros _. split.
    + exists false, []. repeat split; done.
    + intros ? ? [=].
  - destruct enabled; simpl; [|done].
    destruct chc0 as [| | | | |config]; try done. simpl.
    destruct (iface_eq_scalar (index config "certificate_source")
                (VString CertificateSourceAzureKeyVault) I)
      as [[-> Hsrc]|[-> Hsrc]]; simpl.
    + destruct (AzureKeyVaultCertificateHasValues config true) eqn:Hall; [|done].
      intros _. split.
      * exists true, (VMap config :: more). repeat split; done.
      * intros ? ? [= <- <-]. exists config. split; [done|]. split; [|done].
        intros _. by apply key_vault_all_populated.
    + destruct (AzureKeyVaultCertificateHasValues config false) eqn:Hany; [done|].
      intros _. split.
      * exists true, (VMap config :: more). repeat split; done.
      * intros ? ? [= <- <-]. exists config. split; [done|]. split; [done|].
        intros _. by apply key_vault_none_populated.
Qed.

Lemma FrontdoorSettings_accepted d rrs fes bps lbs hps :
  collections d rrs fes bps lbs hps →
  FrontdoorSettings d = Return () →
  fes ≠ [] ∧
  Forall (fun rr => routing_rule_check fes bps rr = Return ()) rrs ∧
  Forall (fun bp => backend_pool_check lbs hps bp = Return ()) bps ∧
  Forall (fun fe => frontend_endpoint_check fe = Return ()) fes.
Proof.
  intros Hd. rewrite (FrontdoorSettings_collections _ _ _ _ _ _ Hd).
  apply FrontdoorSettings_checks_pass.
Qed.

(** X1.  In an accepted configuration every routing rule is a mapping
    whose redirect and forwarding block lists are not both empty and do
    not hold exactly one block each. *)
Theorem accepted_rules_have_configuration_type d rrs fes bps lbs hps :
  collections d rrs fes bps lbs hps →
  FrontdoorSettings d = Return () →
  ∀ rr, rr ∈ rrs → ∃ rule, rr = VMap rule ∧ has_configuration_type rule.
Proof.
  intros Hd (_ & Hrr & _)%(FrontdoorSettings_accepted _ _ _ _ _ _ Hd) rr Hin.
  rewrite Forall_forall in Hrr.
  destruct (routing_rule_check_pass _ _ _ (Hrr _ Hin)) as (rule & -> & ? & _).
  by exists rule.
Qed.

Lemma accepted_rules_have_configuration_type_witness :
  ∃ rule, routing_rule "rr1" ["fe1"] [] [forwarding "bp1"] = VMap rule ∧
          has_configuration_type rule.
Proof.
  refine (accepted_rules_have_configuration_type example1 _ _ _ _ _
            (collections_diff_of _ _ _ _ _) _ _ _).
  - vm_compute. reflexivity.
  - apply list_elem_of_here.
Defined.

(** X2.  In an accepted configuration every routing rule with a
    forwarding block names, in the first such block, a backend pool that
    the backend-pool collection defines. *)
Theorem accepted_forwarding_resolved d rrs fes bps lbs hps :
  collections d rrs fes bps lbs hps →
  FrontdoorSettings d = Return () →
  ∀ rule, VMap rule ∈ rrs → forwarding_resolved bps rule.
Proof.
  intros Hd (_ & Hrr & _)%(FrontdoorSettings_accepted _ _ _ _ _ _ Hd) rule Hin.
  rewrite Forall_forall in Hrr.
  by destruct (routing_rule_check_pass _ _ _ (Hrr _ Hin)) as (? & [= <-] & _ & ? & _).
Qed.

Lemma accepted_forwarding_resolved_witness :
  ∃ fc name, forwarding "bp1" = VMap fc ∧
    index fc "backend_pool_name" = VString name ∧
    resolved (VString name) [ backend_pool "bp1" "lb1" "hp1" ].
Proof.
  refine (accepted_forwarding_resolved example1 _ _ _ _ _
            (collections_diff_of _ _ _ _ _) _
            (list_to_map
               [ ("name", VString "rr1");
                 ("frontend_endpoints", VList [VString "fe1"]);
                 ("redirect_configuration", VList []);
                 ("forwarding_configuration", VList [forwarding "bp1"]) ])
            _ (forwarding "bp1") [] _).
  - vm_compute. reflexivity.
  - apply list_elem_of_here.
  - vm_compute. reflexivity.
Defined.

(** X3.  In an accepted configuration every routing rule lists at least
    one frontend endpoint, every listed entry is a string, and every
    listed name is the name of a configured frontend endpoint. *)
Theorem accepted_frontends_resolved d rrs fes bps lbs hps :
  collections d rrs fes bps lbs hps →
  FrontdoorSettings d = Return () →
  ∀ rule, VMap rule ∈ rrs → frontends_resolved fes rule.
Proof.
  intros Hd (_ & Hrr & _)%(FrontdoorSettings_accepted _ _ _ _ _ _ Hd) rule Hin.
  rewrite Forall_forall in Hrr.
  by destruct (routing_rule_check_pass _ _ _ (Hrr _ Hin)) as (? & [= <-] & _ & _ & ?).
Qed.

Lemma accepted_frontends_resolved_witness :
  frontends_resolved [ frontend_endpoint "fe1" false [] ]
    (list_to_map
       [ ("name", VString "rr1");
         ("frontend_endpoints", VList [VString "fe1"]);
         ("redirect_configuration", VList []);
         ("forwarding_configuration", VList [forwarding "bp1"]) ]).
Proof.
  refine (accepted_frontends_resolved example1 _ _ _ _ _
            (collections_diff_of _ _ _ _ _) _ _ _).
  - vm_compute. reflexivity.
  - apply list_elem_of_here.
Defined.

(** X4.  In an accepted configuration every backend pool is a mapping;
    when load-balancing settings are defined its [load_balancing_name]
    is the name of one of them, and when health-probe settings are
    defined its [health_probe_name] is the name of one of them. *)
Theorem accepted_settings_resolved d rrs fes bps lbs hps :
  collections d rrs fes bps lbs hps →
  FrontdoorSettings d = Return () →
  ∀ bp, bp ∈ bps →
  ∃ pool, bp = VMap pool ∧
    settings_resolved lbs (index pool "load_balancing_name") ∧
    settings_resolved hps (index pool "health_probe_name").
Proof.
  intros Hd (_ & _ & Hbp & _)%(FrontdoorSettings_accepted _ _ _ _ _ _ Hd) bp Hin.
  rewrite Forall_forall in Hbp. by apply backend_pool_check_pass, Hbp.
Qed.

Lemma accepted_settings_resolved_witness :
  ∃ pool, backend_pool "bp1" "lb1" "hp1" = VMap pool ∧
    settings_resolved [ setting "lb1" ] (index pool "load_balancing_name") ∧
    settings_resolved [ setting "hp1" ] (index pool "health_probe_name").
Proof.
  refine (accepted_settings_resolved example1 _ _ _ _ _
            (collections_diff_of _ _ _ _ _) _ _ _).
  - vm_compute. reflexivity.
  - apply list_elem_of_here.
Defined.

(** X5.  In an accepted configuration every frontend endpoint that is
    not an empty mapping has a boolean provisioning flag and a TLS block
    list, and the list is non-empty exactly when the flag is true. *)
Theorem accepted_custom_https_matches_flag d rrs fes bps lbs hps :
  collections d rrs fes bps lbs hps →
  FrontdoorSettings d = Return () →
  ∀ fe, fe ∈ fes → ∃ m, fe = VMap m ∧ (m ≠ ∅ → custom_https_matches_flag m).
Proof.
  intros Hd (_ & _ & _ & Hfe)%(FrontdoorSettings_accepted _ _ _ _ _ _ Hd) fe Hin.
  rewrite Forall_forall in Hfe.
  destruct (frontend_endpoint_check_pass _ (Hfe _ Hin)) as (m & -> & Hm).
  exists m. split; [done|]. intros Hne. by apply Hm.
Qed.

Lemma accepted_custom_https_matches_flag_witness :
  ∃ m, frontend_endpoint "fe1" true
         [ custom_https "AzureKeyVault" "secret" "1" "vault" ] = VMap m ∧
       (m ≠ ∅ → custom_https_matches_flag m).
Proof.
  refine (accepted_custom_https_matches_flag example_key_vault _ _ _ _ _
            (collections_diff_of _ _ _ _ _) _ _ _).
  - vm_compute. reflexivity.
  - apply list_elem_of_here.
Defined.

(** X6.  In an accepted configuration the first TLS block of every
    frontend endpoint is a mapping whose three key-vault fields are all
    non-empty when its [certificate_source] is the key-vault source, and
    all empty or missing when it is anything else. *)
Theorem accepted_key_vault_consistent d rrs fes bps lbs hps :
  collections d rrs fes bps lbs hps →
  FrontdoorSettings d = Return () →
  ∀ fe chc0 more,
    VMap fe ∈ fes →
    index fe "custom_https_configuration" = VList (chc0 :: more) →
    ∃ config, chc0 = VMap config ∧ key_vault_consistent config.
Proof.
  intros Hd (_ & _ & _ & Hfe)%(FrontdoorSettings_accepted _ _ _ _ _ _ Hd)
    fe chc0 more Hin Hchc.
  rewrite Forall_forall in Hfe.
  destruct (frontend_endpoint_check_pass _ (Hfe _ Hin)) as (m & [= <-] & Hm).
  eapply Hm; [|done]. intros ->. by rewrite index_empty in Hchc.
Qed.

Lemma accepted_key_vault_consistent_witness :
  ∃ config, custom_https "AzureKeyVault" "secret" "1" "vault" = VMap config ∧
            key_vault_consistent config.
Proof.
  refine (accepted_key_vault_consistent example_key_vault _ _ _ _ _
            (collections_diff_of _ _ _ _ _) _
            (list_to_map
               [ ("name", VString "fe1");
                 ("custom_https_provisioning_enabled", VBool true);
                 ("custom_https_configuration",
                  VList [custom_https "AzureKeyVault" "secret" "1" "vault"]) ])
            _ [] _ _).
  - vm_compute. reflexivity.
  - apply list_elem_of_here.
  - vm_compute. reflexivity.
Defined.

(** ** What is enough for acceptance *)

Lemma routing_rule_configuration_complete bps rule :
  has_configuration_type rule → forwarding_resolved bps rule →
  routing_rule_configuration bps rule = Return ().
Proof.
  intros (redirectConfig & forwardConfig & Hr & Hf & Hnone & Hboth) Hfwd.
  unfold routing_rule_configuration. rewrite Hr, Hf. simpl.
  replace (Nat.eqb (length redirectConfig) 0 && Nat.eqb (length forwardConfig) 0)
    with false.
  2:{ destruct redirectConfig, forwardConfig; try done. by destruct Hnone. }
  replace (Nat.eqb (length redirectConfig) 1 && Nat.eqb (length forwardConfig) 1)
    with false.
  2:{ symmetry. apply andb_false_iff.
      destruct (Nat.eqb_spec (length redirectConfig) 1); [|by left].
      destruct (Nat.eqb_spec (length forwardConfig) 1); [|by right].
      by destruct Hboth. }
  destruct forwardConfig as [|fc0 more]; [done|].
  destruct (Hfwd _ _ Hf) as (fc & name & -> & Hname & Hres).
  simpl. rewrite Hname. simpl.
  by apply DoesBackendPoolExists_found in Hres as ->.
Qed.

Lemma routing_rule_frontends_complete fes rule :
  all_maps fes → frontends_resolved fes rule →
  routing_rule_frontends fes rule = Return ().
Proof.
  intros Hmaps (names & Hne & Hnames & Hres).
  rewrite (routing_rule_frontends_unfold _ _ _ Hnames).
  rewrite length_positive by (by destruct names).
  by apply routing_rule_frontends_resolved.
Qed.

Lemma settings_reference_check_complete not_found settings name ref :
  all_maps settings → settings_resolved settings ref →
  settings_reference_check not_found settings name ref = Return ().
Proof.
  intros Hmaps Hres. destruct settings as [|s rest]; [done|].
  destruct Hres as [Href Hres]; [done|].
  by apply settings_reference_check_resolved.
Qed.

Lemma frontend_endpoint_check_complete m :
  (m ≠ ∅ → custom_https_matches_flag m ∧ custom_https_consistent m) →
  frontend_endpoint_check (VMap m) = Return ().
Proof.
  intros Hm. destruct (size m) eqn:Hsize.
  { unfold frontend_endpoint_check. simpl. by rewrite Hsize. }
  destruct Hm as [(enabled & chc & Hen & Hchc & Hflag) Hcons].
  { intros ->. by rewrite map_size_empty in Hsize. }
  rewrite (frontend_endpoint_check_unfold _ _ _ Hen Hchc).
  destruct chc as [|chc0 more].
  - destruct enabled; [|done]. by destruct (proj1 Hflag).
  - rewrite (proj2 Hflag) by done.
    destruct (Hcons _ _ Hchc) as (config & -> & Hkv & Hother). simpl.
    destruct (iface_eq_scalar (index config "certificate_source")
                (VString CertificateSourceAzureKeyVault) I)
      as [[-> Hsrc]|[-> Hsrc]]; simpl.
    + by rewrite (proj2 (key_vault_all_populated config) (Hkv Hsrc)).
    + by rewrite (proj2 (key_vault_none_populated config) (Hother Hsrc)).
Qed.

(** X7.  Conversely, a configuration is accepted as soon as it has a
    frontend endpoint, its settings entries are mappings, and its
    routing rules, backend pools and frontend endpoints satisfy the
    conditions that acceptance guarantees: the validator rejects no
    consistent configuration. *)
Theorem consistent_configuration_accepted d rrs fes bps lbs hps :
  collections d rrs fes bps lbs hps →
  fes ≠ [] → all_maps lbs → all_maps hps →
  (∀ rr, rr ∈ rrs →
     ∃ rule, rr = VMap rule ∧ has_configuration_type rule ∧
       forwarding_resolved bps rule ∧ frontends_resolved fes rule) →
  (∀ bp, bp ∈ bps →
     ∃ pool, bp = VMap pool ∧
       settings_resolved lbs (index pool "load_balancing_name") ∧
       settings_resolved hps (index pool "health_probe_name")) →
  (∀ fe, fe ∈ fes →
     ∃ m, fe = VMap m ∧
       (m ≠ ∅ → custom_https_matches_flag m ∧ custom_https_consistent m)) →
  FrontdoorSettings d = Return ().
Proof.
  intros Hd Hne Hlbs Hhps Hrr Hbp Hfe.
  rewrite (FrontdoorSettings_collections _ _ _ _ _ _ Hd).
  apply FrontdoorSettings_checks_pass.
  assert (all_maps fes) as Hmaps.
  { apply Forall_forall. intros fe (m & -> & _)%Hfe. by exists m. }
  split; [done|]. split; [|split]; apply Forall_forall.
  - intros rr (rule & -> & Htype & Hfwd & Hfront)%Hrr.
    rewrite routing_rule_check_unfold.
    rewrite (routing_rule_configuration_complete _ _ Htype Hfwd). simpl.
    by apply routing_rule_frontends_complete.
  - intros bp (pool & -> & Hlb & Hhp)%Hbp. rewrite backend_pool_check_unfold.
    rewrite (settings_reference_check_complete _ _ _ _ Hlbs Hlb). simpl.
    by apply settings_reference_check_complete.
  - intros fe (m & -> & Hm)%Hfe. by apply frontend_endpoint_check_complete.
Qed.

Lemma consistent_configuration_accepted_witness :
  FrontdoorSettings example_key_vault = Return ().
Proof.
  refine (consistent_configuration_accepted example_key_vault _ _ _ _ _
            (collections_diff_of _ _ _ _ _) _ _ _ _ _ _).
  - discriminate.
  - repeat constructor. by eexists.
  - repeat constructor. by eexists.
  - intros rr Hin. apply (routing_rule_check_pass _ _ rr).
    revert rr Hin. apply Forall_forall, for_each_pass. vm_compute. reflexivity.
  - intros bp Hin. apply (backend_pool_check_pass _ _ bp).
    revert bp Hin. apply Forall_forall, for_each_pass. vm_compute. reflexivity.
  - intros fe Hin. apply (frontend_endpoint_check_pass fe).
    revert fe Hin. apply Forall_forall, for_each_pass. vm_compute. reflexivity.
Defined.

(** ** Where an error comes from *)

Lemma for_each_Fail body l e :
  for_each body l = Fail e →
  ∃ pre x post, l = pre ++ x :: post ∧
    for_each body pre = Return () ∧ body x = Fail e.
Proof.
  induction l as [|x l IH]; [done|]. simpl.
  destruct (body x) as [[]| |] eqn:Hx; try done.
  - intros (pre & y & post & -> & Hpre & Hy)%IH.
    exists (x :: pre), y, post. split; [done|]. split; [|done].
    simpl. by rewrite Hx.
  - intros [= ->]. exists [], x, l. done.
Qed.

Lemma iface_eq_false a b : iface_eq a b = Return false → a ≠ b.
Proof.
  intros Hne ->. destruct b; simpl in Hne; try done.
  - by rewrite String.eqb_refl in Hne.
  - by destruct b in Hne.
  - by rewrite Z.eqb_refl in Hne.
Qed.

Lemma frontend_endpoint_found_false name fes :
  frontend_endpoint_found name fes = Return false → ¬ resolved (VString name) fes.
Proof.
  induction fes as [|entry rest IH]; intros Hfound (m' & Hin & Hname).
  - by apply elem_of_nil in Hin.
  - destruct entry as [| | | | |m]; try done.
    rewrite frontend_endpoint_found_cons in Hfound.
    destruct (iface_eq (VString name) (index m "name")) as [[]| |] eqn:Heq;
      try done.
    apply iface_eq_false in Heq. simpl in Hfound.
    apply elem_of_cons in Hin as [[= ->]|Hin]; [done|].
    apply IH; [done|]. by exists m'.
Qed.

Lemma settings_name_found_false ref settings :
  settings_name_found ref settings = Return false → ¬ resolved ref settings.
Proof.
  induction settings as [|entry rest IH]; intros Hfound (m' & Hin & Hname).
  - by apply elem_of_nil in Hin.
  - destruct entry as [| | | | |m]; try done. simpl in Hfound.
    destruct (iface_eq (index m "name") ref) as [[]| |] eqn:Heq; try done.
    apply iface_eq_false in Heq. simpl in Hfound.
    apply elem_of_cons in Hin as [[= ->]|Hin]; [done|].
    apply IH; [done|]. by exists m'.
Qed.

Lemma iface_eq_not_Fail a b e : iface_eq a b ≠ Fail e.
Proof. by destruct a, b. Qed.

(** The scans report nothing themselves: they find, do not find, or
    panic. *)
Lemma frontend_endpoint_found_not_Fail name fes e :
  frontend_endpoint_found name fes ≠ Fail e.
Proof.
  induction fes as [|entry rest IH]; [done|].
  destruct entry as [| | | | |m]; try done.
  rewrite frontend_endpoint_found_cons.
  destruct (iface_eq (VString name) (index m "name")) as [[]| |] eqn:Heq; try done.
  by apply iface_eq_not_Fail in Heq.
Qed.

Lemma settings_name_found_not_Fail ref settings e :
  settings_name_found ref settings ≠ Fail e.
Proof.
  induction settings as [|entry rest IH]; [done|].
  destruct entry as [| | | | |m]; try done. simpl.
  destruct (iface_eq (index m "name") ref) as [[]| |] eqn:Heq; try done.
  by apply iface_eq_not_Fail in Heq.
Qed.

Lemma DoesBackendPoolExists_Some name bps err :
  DoesBackendPoolExists name bps = Some err →
  err = BackendPoolNotFound name ∧ ¬ resolved (VString name) bps.
Proof.
  intros Herr. split.
  - unfold DoesBackendPoolExists in Herr.
    by destruct (existsb _ _); simplify_eq.
  - intros Hres%DoesBackendPoolExists_found. congruence.
Qed.

Lemma routing_rule_configuration_Fail bps rule e :
  routing_rule_configuration bps rule = Fail e →
  (e = RoutingRuleNoConfiguration (index rule "name") ∧
   index rule "redirect_configuration" = VList [] ∧
   index rule "forwarding_configuration" = VList []) ∨
  (e = RoutingRuleConflictingConfiguration (index rule "name") ∧
   both_configurations rule) ∨
  (∃ fc more name,
     e = RoutingRuleBackendPool (index rule "name") (BackendPoolNotFound name) ∧
     index rule "forwarding_configuration" = VList (VMap fc :: more) ∧
     index fc "backend_pool_name" = VString name ∧
     ¬ resolved (VString name) bps).
Proof.
  unfold routing_rule_configuration, both_configurations.
  destruct (index rule "redirect_configuration") as [| | | |redirectConfig|];
    try done.
  destruct (index rule "forwarding_configuration") as [| | | |forwardConfig|];
    try done.
  simpl.
  destruct redirectConfig as [|r [|r' redirectConfig]],
           forwardConfig as [|fc0 [|fc1 forwardConfig]]; simpl;
    try (intros [= <-]; by eauto 10);
    try done.
  all: destruct fc0 as [| | | | |fc]; try done; simpl.
  all: destruct (index fc "backend_pool_name") as [|name| | | |] eqn:Hname;
    try done; simpl.
  all: destruct (DoesBackendPoolExists name bps) as [err|] eqn:Hfound; try done.
  all: apply DoesBackendPoolExists_Some in Hfound as [-> Hno].
  all: intros [= <-]; right; right; by eauto 10.
Qed.

Lemma routing_rule_frontends_Fail fes rule e :
  routing_rule_frontends fes rule = Fail e →
  (e = RoutingRuleNoFrontendEndpoints (index rule "name") ∧
   index rule "frontend_endpoints" = VList []) ∨
  (∃ names name,
     e = RoutingRuleFrontendNotFound (index rule "name") name ∧
     index rule "frontend_endpoints" = VList names ∧
     VString name ∈ names ∧ ¬ resolved (VString name) fes).
Proof.
  unfold routing_rule_frontends.
  destruct (index rule "frontend_endpoints") as [| | | |frontends|]; try done.
  simpl. destruct frontends as [|x l]; [intros [= <-]; by left|].
  change (Nat.ltb 0 (length (x :: l))) with true. cbv iota.
  intros (pre & y & post & Hl & _ & Hy)%for_each_Fail. right.
  unfold routing_rule_frontend in Hy.
  destruct y as [|name| | | |]; try done. simpl in Hy.
  destruct (frontend_endpoint_found name fes) as [[]| |] eqn:Hfound; try done;
    [|by apply frontend_endpoint_found_not_Fail in Hfound].
  injection Hy as <-. exists (x :: l), name. split; [done|]. split; [done|].
  split; [|by apply frontend_endpoint_found_false].
  rewrite Hl. apply elem_of_app. right. apply list_elem_of_here.
Qed.

Lemma settings_reference_check_Fail not_found settings name ref e :
  settings_reference_check not_found settings name ref = Fail e →
  e = not_found name ref ∧ settings ≠ [] ∧ ¬ resolved ref settings.
Proof.
  unfold settings_reference_check. destruct settings as [|s rest]; [done|].
  change (Nat.ltb 0 (length (s :: rest))) with true. cbv iota.
  destruct (settings_name_found ref (s :: rest)) as [[]| |] eqn:Hfound; try done;
    [|by apply settings_name_found_not_Fail in Hfound].
  intros [= <-]. split; [done|]. split; [done|].
  by apply settings_name_found_false.
Qed.

Lemma key_vault_some_unpopulated config :
  AzureKeyVaultCertificateHasValues config true = false →
  ∃ k, k ∈ key_vault_fields ∧ populated (index config k) = false.
Proof.
  unfold AzureKeyVaultCertificateHasValues, key_vault_fields. simpl.
  destruct (populated (index config "azure_key_vault_certificate_secret_name"))
    eqn:H1; [|intros _; eexists; split; [|exact H1]; set_solver].
  destruct (populated (index config "azure_key_vault_certificate_secret_version"))
    eqn:H2; [|intros _; eexists; split; [|exact H2]; set_solver].
  destruct (populated (index config "azure_key_vault_certificate_vault_id"))
    eqn:H3; [done|intros _; eexists; split; [|exact H3]; set_solver].
Qed.

Lemma key_vault_some_populated config :
  AzureKeyVaultCertificateHasValues config false = true →
  ∃ k, k ∈ key_vault_fields ∧ populated (index config k) = true.
Proof.
  unfold AzureKeyVaultCertificateHasValues.
  intros (k & Hk%list_elem_of_In & Hp)%existsb_exists. by exists k.
Qed.

Lemma routing_rule_check_Fail fes bps rr e :
  routing_rule_check fes bps rr = Fail e →
  ∃ rule, rr = VMap rule ∧
    (routing_rule_configuration bps rule = Fail e ∨
     routing_rule_frontends fes rule = Fail e).
Proof.
  destruct rr as [| | | | |rule]; try done. rewrite routing_rule_check_unfold.
  intros Hcheck. exists rule. split; [done|].
  destruct (routing_rule_configuration bps rule) as [[]| |]; try done; eauto.
Qed.

Lemma backend_pool_check_Fail lbs hps bp e :
  backend_pool_check lbs hps bp = Fail e →
  ∃ pool, bp = VMap pool ∧
    ((e = BackendPoolLoadBalancingNotFound
            (index pool "name") (index pool "load_balancing_name") ∧
      lbs ≠ [] ∧ ¬ resolved (index pool "load_balancing_name") lbs) ∨
     (e = BackendPoolHealthProbeNotFound
            (index pool "name") (index pool "health_probe_name") ∧
      hps ≠ [] ∧ ¬ resolved (index pool "health_probe_name") hps)).
Proof.
  destruct bp as [| | | | |pool]; try done. rewrite backend_pool_check_unfold.
  intros Hcheck. exists pool. split; [done|].
  destruct (settings_reference_check _ lbs _ _) as [[]| |] eqn:Hlb; try done.
  - right. by apply settings_reference_check_Fail in Hcheck.
  - left. injection Hcheck as ->. by apply settings_reference_check_Fail in Hlb.
Qed.

Lemma frontend_endpoint_check_Fail fe e :
  frontend_endpoint_check fe = Fail e →
  ∃ m enabled chc, fe = VMap m ∧
    index m "custom_https_provisioning_enabled" = VBool enabled ∧
    index m "custom_https_configuration" = VList chc ∧
    ((e = CustomHttpsDisabled (index m "name") ∧ enabled = false ∧ chc ≠ []) ∨
     (e = CustomHttpsUndefined (index m "name") ∧ enabled = true ∧ chc = []) ∨
     (∃ config more,
        e = CustomHttpsKeyVaultIncomplete (index m "name") ∧ enabled = true ∧
        chc = VMap config :: more ∧
        index config "certificate_source" = VString CertificateSourceAzureKeyVault ∧
        ∃ k, k ∈ key_vault_fields ∧ populated (index config k) = false) ∨
     (∃ config more,
        e = CustomHttpsKeyVaultExtraneous (index m "name") ∧ enabled = true ∧
        chc = VMap config :: more ∧
        index config "certificate_source" ≠ VString CertificateSourceAzureKeyVault ∧
        ∃ k, k ∈ key_vault_fields ∧ populated (index config k) = true)).
Proof.
  destruct fe as [| | | | |m]; try done.
  unfold frontend_endpoint_check. simpl.
  destruct (Nat.ltb 0 (size m)); [|done].
  destruct (index m "custom_https_provisioning_enabled") as [| |enabled| | |]
    eqn:Hen; try done.
  destruct (index m "custom_https_configuration") as [| | | |chc|] eqn:Hchc;
    try done.
  simpl. intros Hcheck. exists m, enabled, chc. do 3 (split; [done|]).
  destruct chc as [|chc0 more]; simpl in Hcheck.
  - destruct enabled; [|done]. injection Hcheck as <-. right. by left.
  - destruct enabled; simpl in Hcheck; [|injection Hcheck as <-; by left].
    destruct chc0 as [| | | | |config]; try done. simpl in Hcheck.
    destruct (iface_eq_scalar (index config "certificate_source")
                (VString CertificateSourceAzureKeyVault) I)
      as [[Heq Hsrc]|[Heq Hsrc]]; rewrite Heq in Hcheck; simpl in Hcheck.
    + destruct (AzureKeyVaultCertificateHasValues config true) eqn:Hall; [done|].
      injection Hcheck as <-. right. right. left. exists config, more.
      do 4 (split; [done|]). by apply key_vault_some_unpopulated.
    + destruct (AzureKeyVaultCertificateHasValues config false) eqn:Hany; [|done].
      injection Hcheck as <-. right. right. right. exists config, more.
      do 4 (split; [done|]). by apply key_vault_some_populated.
Qed.

Lemma FrontdoorSettings_Fail d rrs fes bps lbs hps e :
  collections d rrs fes bps lbs hps →
  FrontdoorSettings d = Fail e →
  first_failure rrs fes bps lbs hps e.
Proof.
  intros Hd. rewrite (FrontdoorSettings_collections _ _ _ _ _ _ Hd).
  unfold FrontdoorSettings_checks, first_failure.
  destruct fes as [|fe fes']; [intros [= <-]; by left|].
  change (Nat.eqb (length (fe :: fes')) 0) with false. cbv iota.
  intros Hcheck. right.
  destruct (for_each (routing_rule_check _ _) rrs) as [[]| |] eqn:Hrr;
    simpl in Hcheck; try done.
  2:{ injection Hcheck as <-. left. split; [done|]. by apply for_each_Fail. }
  destruct (for_each (backend_pool_check _ _) bps) as [[]| |] eqn:Hbp;
    simpl in Hcheck; try done.
  2:{ injection Hcheck as <-. right. left. do 2 (split; [done|]).
      by apply for_each_Fail. }
  right. right. do 2 (split; [done|]). by apply for_each_Fail.
Qed.

(** X8.  The validator returns an error exactly when some check does
    not pass, and the error is that of the first such check in the
    order: endpoint presence, routing rules, backend pools, frontend
    endpoints. *)
Theorem verdict_is_first_failure d rrs fes bps lbs hps e :
  collections d rrs fes bps lbs hps →
  FrontdoorSettings d = Fail e ↔ first_failure rrs fes bps lbs hps e.
Proof.
  intros Hd. split; [by apply FrontdoorSettings_Fail|].
  intros [[-> ->]|[(? & pre & rr & post & ? & ? & ?)
                  |[(? & ? & pre & bp & post & ? & ? & ?)
                   |(? & ? & pre & fe & post & ? & ? & ?)]]].
  - by rewrite (FrontdoorSettings_collections _ _ _ _ _ _ Hd).
  - by eapply FrontdoorSettings_at_routing_rule.
  - by eapply FrontdoorSettings_at_backend_pool.
  - by eapply FrontdoorSettings_at_frontend_endpoint.
Qed.

(** End-to-end example 2: the routing rule is the first failure. *)
Lemma verdict_is_first_failure_witness :
  first_failure [ routing_rule "rr1" ["fe1"] [] [forwarding "bp-missing"] ]
                [ frontend_endpoint "fe1" false [] ]
                [ backend_pool "bp1" "lb1" "hp1" ]
                [ setting "lb1" ] [ setting "hp1" ]
    (RoutingRuleBackendPool (VString "rr1") (BackendPoolNotFound "bp-missing")).
Proof.
  apply (verdict_is_first_failure example2 _ _ _ _ _ _
           (collections_diff_of _ _ _ _ _)).
  vm_compute. reflexivity.
Defined.

Lemma first_failure_defect rrs fes bps lbs hps e :
  first_failure rrs fes bps lbs hps e → defect rrs fes bps lbs hps e.
Proof.
  intros [[-> ->]|[(_ & pre & rr & post & -> & _ & Hrr)
                  |[(_ & _ & pre & bp & post & -> & _ & Hbp)
                   |(_ & _ & pre & fe & post & -> & _ & Hfe)]]].
  - by constructor.
  - apply routing_rule_check_Fail in Hrr as (rule & -> & [Hconf|Hfront]).
    + assert (VMap rule ∈ pre ++ VMap rule :: post) as Hin
        by (apply elem_of_app; right; apply list_elem_of_here).
      apply routing_rule_configuration_Fail in Hconf
        as [(-> & ? & ?)|[(-> & ?)|(fc & more & name & -> & ? & ? & ?)]].
      * by apply defect_no_configuration.
      * by apply defect_conflicting_configuration.
      * by eapply defect_backend_pool.
    + assert (VMap rule ∈ pre ++ VMap rule :: post) as Hin
        by (apply elem_of_app; right; apply list_elem_of_here).
      apply routing_rule_frontends_Fail in Hfront
        as [(-> & ?)|(names & name & -> & ? & ? & ?)].
      * by apply defect_no_frontends.
      * by eapply defect_frontend.
  - apply backend_pool_check_Fail in Hbp as (pool & -> & Hcase).
    assert (VMap pool ∈ pre ++ VMap pool :: post) as Hin
      by (apply elem_of_app; right; apply list_elem_of_here).
    destruct Hcase as [(-> & ? & ?)|(-> & ? & ?)].
    + by apply defect_load_balancing.
    + by apply defect_health_probe.
  - apply frontend_endpoint_check_Fail in Hfe
      as (m & enabled & chc & -> & Hen & Hchc & Hcase).
    assert (VMap m ∈ pre ++ VMap m :: post) as Hin
      by (apply elem_of_app; right; apply list_elem_of_here).
    destruct Hcase as [(-> & -> & ?)
                      |[(-> & -> & ->)
                       |[(config & more & -> & -> & -> & ? & k & ? & ?)
                        |(config & more & -> & -> & -> & ? & k & ? & ?)]]].
    + by eapply defect_https_disabled.
    + by apply defect_https_undefined.
    + by eapply defect_key_vault_incomplete.
    + by eapply defect_key_vault_extraneous.
Qed.

(** X9.  Every error the validator returns is genuine: the
    configuration really has the defect the error stands for, in an
    entry that carries the reported name (an empty endpoint collection,
    a rule without or with conflicting configuration blocks, a reference
    that no entry of the target collection resolves, a TLS block that
    contradicts the provisioning flag or the certificate source). *)
Theorem reported_defect_is_genuine d rrs fes bps lbs hps e :
  collections d rrs fes bps lbs hps →
  FrontdoorSettings d = Fail e →
  defect rrs fes bps lbs hps e.
Proof.
  intros Hd Hfail. by eapply first_failure_defect, FrontdoorSettings_Fail.
Qed.

(** End-to-end example 3: the key-vault secret name is indeed empty. *)
Lemma reported_defect_is_genuine_witness :
  defect [ routing_rule "rr1" ["fe1"] [] [forwarding "bp1"] ]
         [ frontend_endpoint "fe1" true
             [ custom_https "AzureKeyVault" "" "1" "vault" ] ]
         [ backend_pool "bp1" "lb1" "hp1" ]
         [ setting "lb1" ] [ setting "hp1" ]
    (CustomHttpsKeyVaultIncomplete (VString "fe1")).
Proof.
  apply (reported_defect_is_genuine example3 _ _ _ _ _ _
           (collections_diff_of _ _ _ _ _)).
  vm_compute. reflexivity.
Defined.

(** ** What is read of a settings entry *)

Lemma settings_name_found_same_name ref settings settings' :
  Forall2 same_name settings settings' →
  settings_name_found ref settings = settings_name_found ref settings'.
Proof.
  induction 1 as [|a b l l' (ma & mb & -> & -> & Hname) _ IH]; [done|].
  simpl. by rewrite Hname, IH.
Qed.

Lemma settings_reference_check_same_name not_found settings settings' name ref :
  Forall2 same_name settings settings' →
  settings_reference_check not_found settings name ref =
  settings_reference_check not_found settings' name ref.
Proof.
  intros Hsame. unfold settings_reference_check.
  rewrite (Forall2_length _ _ _ Hsame).
  by rewrite (settings_name_found_same_name _ _ _ Hsame).
Qed.

Lemma for_each_ext body body' l :
  (∀ x, body x = body' x) → for_each body l = for_each body' l.
Proof. intros Hext. induction l as [|x l IH]; simpl; [done|]. by rewrite Hext, IH. Qed.

(** X10.  Of a load-balancing or health-probe settings entry the
    validator reads the name and nothing else: replacing the entries of
    both settings collections by mappings with the same names, position
    by position, leaves the outcome unchanged, whatever it is. *)
Theorem settings_matter_by_name_only d d' rrs fes bps lbs hps lbs' hps' :
  collections d rrs fes bps lbs hps →
  collections d' rrs fes bps lbs' hps' →
  Forall2 same_name lbs lbs' → Forall2 same_name hps hps' →
  FrontdoorSettings d = FrontdoorSettings d'.
Proof.
  intros Hd Hd' Hlbs Hhps.
  rewrite (FrontdoorSettings_collections _ _ _ _ _ _ Hd).
  rewrite (FrontdoorSettings_collections _ _ _ _ _ _ Hd').
  unfold FrontdoorSettings_checks.
  rewrite (for_each_ext (backend_pool_check lbs hps) (backend_pool_check lbs' hps'));
    [done|].
  intros bp. destruct bp as [| | | | |pool]; try done.
  rewrite !backend_pool_check_unfold.
  rewrite (settings_reference_check_same_name _ lbs lbs') by done.
  by rewrite (settings_reference_check_same_name _ hps hps').
Qed.

Lemma settings_matter_by_name_only_witness :
  FrontdoorSettings example1 = FrontdoorSettings example1_tuned_settings.
Proof.
  refine (settings_matter_by_name_only example1 example1_tuned_settings
            _ _ _ _ _ _ _
            (collections_diff_of _ _ _ _ _) (collections_diff_of _ _ _ _ _) _ _).
  - repeat constructor. eexists _, _. split; [reflexivity|].
    split; [reflexivity|]. vm_compute. reflexivity.
  - repeat constructor. eexists _, _. split; [reflexivity|].
    split; [reflexivity|]. vm_compute. reflexivity.
Defined.

(** ** [NoEmptyStrings]: white space *)

Lemma strip_prefix_Some p s rest : strip_prefix p s = Some rest → s = p ++ rest.
Proof.
  revert s. induction p as [|a p IH]; intros s; simpl; [by intros [= ->]|].
  destruct s as [|b s]; [done|].
  destruct (Byte.eqb a b) eqn:Hab; [|done].
  apply byte_dec_bl in Hab as ->. by intros ->%IH.
Qed.

Lemma strip_first_Some runes s rest :
  strip_first runes s = Some rest → ∃ p, p ∈ runes ∧ s = p ++ rest.
Proof.
  induction runes as [|p more IH]; [done|]. simpl.
  destruct (strip_prefix p s) as [rest'|] eqn:Hp.
  - intros [= ->]. exists p. split; [apply list_elem_of_here|].
    by apply strip_prefix_Some.
  - intros (q & Hq & ->)%IH. exists q. split; [by apply list_elem_of_further|done].
Qed.

Section trimming.
Variable runes : list (list byte).
Hypothesis runes_strip :
  ∀ p s, p ∈ runes → strip_first runes (p ++ s) = Some s.
Hypothesis runes_nonempty : ∀ p, p ∈ runes → p ≠ [].

Lemma strip_first_nil : strip_first runes [] = None.
Proof.
  destruct (strip_first runes []) as [rest|] eqn:Hs; [|done].
  apply strip_first_Some in Hs as (p & Hp & Heq).
  destruct p; [by apply runes_nonempty in Hp | done].
Qed.

Lemma trim_runes_nil_tiled fuel s :
  (length s ≤ fuel)%nat → trim_runes runes fuel s = [] → tiled runes s.
Proof.
  revert s. induction fuel as [|fuel IH]; intros s Hlen; simpl.
  - intros ->. constructor.
  - destruct (strip_first runes s) as [rest|] eqn:Hs; [|intros ->; constructor].
    apply strip_first_Some in Hs as (p & Hp & ->). intros Hrest.
    constructor; [done|]. apply IH; [|done].
    rewrite length_app in Hlen. destruct p; [by apply runes_nonempty in Hp|].
    simpl in Hlen. lia.
Qed.

Lemma tiled_trim_runes_nil fuel s :
  (length s ≤ fuel)%nat → tiled runes s → trim_runes runes fuel s = [].
Proof.
  revert s. induction fuel as [|fuel IH]; intros s Hlen Htiled.
  - by destruct s; [|simpl in Hlen; lia].
  - destruct Htiled as [|p s Hp Hs]; simpl.
    + by rewrite strip_first_nil.
    + rewrite (runes_strip _ _ Hp). apply IH; [|done].
      rewrite length_app in Hlen. destruct p; [by apply runes_nonempty in Hp|].
      simpl in Hlen. lia.
Qed.

Lemma trim_runes_stuck fuel s :
  (length s ≤ fuel)%nat →
  trim_runes runes fuel s = [] ∨
  strip_first runes (trim_runes runes fuel s) = None.
Proof.
  revert s. induction fuel as [|fuel IH]; intros s Hlen; simpl.
  - left. by destruct s; [|simpl in Hlen; lia].
  - destruct (strip_first runes s) as [rest|] eqn:Hs; [|by right].
    apply IH. apply strip_first_Some in Hs as (p & Hp & ->).
    rewrite length_app in Hlen. destruct p; [by apply runes_nonempty in Hp|].
    simpl in Hlen. lia.
Qed.

Lemma tiled_stuck s : tiled runes s → strip_first runes s = None → s = [].
Proof.
  intros [|p s' Hp Hs'] Hstuck; [done|]. by rewrite (runes_strip _ _ Hp) in Hstuck.
Qed.
End trimming.

Lemma tiled_app runes s t : tiled runes s → tiled runes t → tiled runes (s ++ t).
Proof.
  induction 1 as [|p s Hp _ IH]; [done|]. intros Ht.
  rewrite <- app_assoc. constructor; [done | by apply IH].
Qed.

Lemma tiled_reverse runes s :
  tiled runes s → tiled (reverse <$> runes) (reverse s).
Proof.
  induction 1 as [|p s Hp _ IH]; [constructor|].
  rewrite reverse_app. apply tiled_app; [done|].
  rewrite <- (app_nil_r (reverse p)). constructor; [|constructor].
  apply list_elem_of_fmap. by exists p.
Qed.

Lemma reverse_reverse_runes (runes : list (list byte)) :
  reverse <$> (reverse <$> runes) = runes.
Proof.
  induction runes as [|p runes IH]; [done|].
  rewrite !fmap_cons, reverse_involutive. by f_equal.
Qed.

Lemma space_runes_strip p s :
  p ∈ space_runes → strip_first space_runes (p ++ s) = Some s.
Proof.
  unfold space_runes. intros H.
  repeat (apply elem_of_cons in H as [->|H]; [reflexivity|]).
  by apply elem_of_nil in H.
Qed.

Lemma space_runes_reverse_strip p s :
  p ∈ reverse <$> space_runes →
  strip_first (reverse <$> space_runes) (p ++ s) = Some s.
Proof.
  intros H. cbv [space_runes fmap list_fmap reverse rev_append app] in H |- *.
  repeat (apply elem_of_cons in H as [->|H]; [reflexivity|]).
  by apply elem_of_nil in H.
Qed.

Lemma space_runes_nonempty p : p ∈ space_runes → p ≠ [].
Proof.
  unfold space_runes. intros H.
  repeat (apply elem_of_cons in H as [->|H]; [done|]).
  by apply elem_of_nil in H.
Qed.

Lemma space_runes_reverse_nonempty p : p ∈ reverse <$> space_runes → p ≠ [].
Proof.
  intros (q & -> & Hq)%list_elem_of_fmap Hnil.
  apply (space_runes_nonempty q Hq).
  by rewrite <- (reverse_involutive q), Hnil.
Qed.

Lemma TrimLeftSpace_nil s : TrimLeftSpace s = [] ↔ tiled space_runes s.
Proof.
  unfold TrimLeftSpace. split.
  - by apply trim_runes_nil_tiled; [apply space_runes_nonempty|].
  - by apply tiled_trim_runes_nil;
      [apply space_runes_strip | apply space_runes_nonempty|].
Qed.

Lemma TrimRightSpace_nil s : TrimRightSpace s = [] ↔ tiled space_runes s.
Proof.
  unfold TrimRightSpace. split.
  - intros Hnil.
    assert (trim_runes (reverse <$> space_runes) (length s) (reverse s) = [])
      as Htrim by (by rewrite <- (reverse_involutive (trim_runes _ _ _)), Hnil).
    apply trim_runes_nil_tiled in Htrim;
      [|apply space_runes_reverse_nonempty | by rewrite length_reverse].
    apply tiled_reverse in Htrim.
    by rewrite reverse_reverse_runes, reverse_involutive in Htrim.
  - intros Htiled%tiled_reverse.
    rewrite tiled_trim_runes_nil;
      [done | apply space_runes_reverse_strip | apply space_runes_reverse_nonempty
      | by rewrite length_reverse | done].
Qed.

(** Trimming leaves nothing exactly of the strings that are white space
    throughout. *)
Lemma TrimSpace_empty v : TrimSpace v = "" ↔ blank v.
Proof.
  unfold TrimSpace, blank.
  set (s := String.list_byte_of_string v).
  assert (∀ l, String.string_of_list_byte l = "" ↔ l = []) as Hnil.
  { intros l. split; [|by intros ->].
    intros Hl. by rewrite <- (String.list_byte_of_string_of_list_byte l), Hl. }
  rewrite Hnil, TrimRightSpace_nil. split.
  - intros Htiled. apply TrimLeftSpace_nil.
    destruct (trim_runes_stuck space_runes space_runes_nonempty (length s) s)
      as [Hdone|Hstuck]; [done|done|].
    by apply (tiled_stuck space_runes space_runes_strip).
  - intros Htiled%TrimLeftSpace_nil. rewrite Htiled. constructor.
Qed.

(** X11.  [NoEmptyStrings] never returns a warning and returns at most
    one error: none exactly for a string that is not white space
    throughout, the must-not-be-empty error exactly for a string made of
    white-space runes only (ASCII or other Unicode white space, the empty
    string included), and the expected-string error exactly for a value
    that is not a string. *)
Theorem NoEmptyStrings_verdict i k :
  fst (NoEmptyStrings i k) = [] ∧
  (NoEmptyStrings i k = ([], []) ↔ ∃ v, i = VString v ∧ ¬ blank v) ∧
  (NoEmptyStrings i k = ([], [MustNotBeEmpty k]) ↔ ∃ v, i = VString v ∧ blank v) ∧
  (NoEmptyStrings i k = ([], [ExpectedString k]) ↔ ∀ v, i ≠ VString v).
Proof.
  destruct i as [|v| | | |]; simpl;
    try (split; [done|]; split; [|split];
         (split; [done | by intros (? & ? & ?)]) || (split; done)).
  pose proof (TrimSpace_empty v) as Hblank.
  destruct (String.eqb_spec (TrimSpace v) "") as [Hempty|Hrest].
  - split; [done|]. split; [|split].
    + split; [done|]. intros (? & [= <-] & Hnot). destruct Hnot. by apply Hblank.
    + split; [|done]. intros _. exists v. split; [done | by apply Hblank].
    + split; [done|]. intros Hno. by destruct (Hno v).
  - split; [done|]. split; [|split].
    + split; [|done]. intros _. exists v. split; [done|].
      intros Hb. by apply Hrest, Hblank.
    + split; [done|]. intros (? & [= <-] & Hb). destruct Hrest. by apply Hblank.
    + split; [done|]. intros Hno. by destruct (Hno v).
Qed.

Lemma space_runes_bytes p :
  p ∈ space_runes → Forall (fun b => b ∈ ascii_spaces ∨ ¬ is_ascii b) p.
Proof.
  unfold space_runes, ascii_spaces, is_ascii. intros H.
  apply Forall_forall. intros b Hb.
  repeat (apply elem_of_cons in H as [->|H];
    [repeat (apply elem_of_cons in Hb as [->|Hb];
       [(left; set_solver) || (right; intros Hlt; vm_compute in Hlt; discriminate)|]);
     by apply elem_of_nil in Hb|]).
  by apply elem_of_nil in H.
Qed.

Lemma tiled_space_bytes s :
  tiled space_runes s → Forall (fun b => b ∈ ascii_spaces ∨ ¬ is_ascii b) s.
Proof.
  induction 1 as [|p s Hp _ IH]; [constructor|].
  apply Forall_app. split; [by apply space_runes_bytes | done].
Qed.

(** X12.  A string holding an ASCII character that is not one of tab,
    line feed, vertical tab, form feed, carriage return and space is
    accepted, whatever else it holds. *)
Theorem NoEmptyStrings_accepts_visible v k b :
  b ∈ String.list_byte_of_string v → is_ascii b → b ∉ ascii_spaces →
  NoEmptyStrings (VString v) k = ([], []).
Proof.
  intros Hin Hascii Hvisible. simpl.
  destruct (String.eqb_spec (TrimSpace v) "") as [Hempty|]; [|done].
  apply TrimSpace_empty, tiled_space_bytes in Hempty.
  rewrite Forall_forall in Hempty. by destruct (Hempty b Hin).
Qed.

Lemma NoEmptyStrings_accepts_visible_witness :
  NoEmptyStrings (VString "  fd-1 ") "name" = ([], []).
Proof.
  apply (NoEmptyStrings_accepts_visible "  fd-1 " "name" "f"%byte).
  - vm_compute. do 2 apply list_elem_of_further. apply list_elem_of_here.
  - reflexivity.
  - unfold ascii_spaces. intros H.
    repeat (apply elem_of_cons in H as [H|H]; [discriminate|]).
    by apply elem_of_nil in H.
Defined.

Lemma ascii_spaces_tiled s :
  Forall (fun b => b ∈ ascii_spaces) s → tiled space_runes s.
Proof.
  induction 1 as [|b s Hb _ IH]; [constructor|].
  change (b :: s) with ([b] ++ s). constructor; [|done].
  unfold ascii_spaces in Hb. unfold space_runes.
  repeat (apply elem_of_cons in Hb as [->|Hb]; [set_solver|]).
  by apply elem_of_nil in Hb.
Qed.

(** X13.  A string made only of tabs, line feeds, vertical tabs, form
    feeds, carriage returns and spaces, the empty string included, is
    rejected with the must-not-be-empty error. *)
Theorem NoEmptyStrings_rejects_ascii_space v k :
  Forall (fun b => b ∈ ascii_spaces) (String.list_byte_of_string v) →
  NoEmptyStrings (VString v) k = ([], [MustNotBeEmpty k]).
Proof.
  intros Hspaces%ascii_spaces_tiled. simpl.
  by rewrite (proj2 (TrimSpace_empty v) Hspaces).
Qed.

Lemma NoEmptyStrings_rejects_ascii_space_witness :
  NoEmptyStrings (VString "   ") "name" = ([], [MustNotBeEmpty "name"]).
Proof.
  apply (NoEmptyStrings_rejects_ascii_space "   " "name").
  vm_compute. repeat constructor; do 5 apply list_elem_of_further;
    apply list_elem_of_here.
Defined.

(** White space beyond ASCII counts as well: a lone no-break space
    (U+00A0) is rejected. *)
Example NoEmptyStrings_rejects_no_break_space :
  NoEmptyStrings (VString (String.string_of_list_byte [xc2; xa0])) "name" =
  ([], [MustNotBeEmpty "name"]).
Proof. vm_compute. reflexivity. Qed.
